(** * testgen: fixture generator for the gdbm on-disk format

    A shallow embedding of [testgen.cc].  The program fills a vector of
    key/value pairs, writes them through the gdbm handle, and mirrors them
    into a JSON file.  Everything the program asks of the outside (gdbm,
    stdio, the clock) is answered by a [World]; everything it does to the
    outside is recorded, in program order, as a list of [event]s. *)

From Stdlib Require Import ZArith NArith List String Ascii Bool Lia Arith.
From Stdlib Require Import DecimalString DecimalN DecimalZ.
From Equations Require Import Equations.
Import ListNotations.

Local Open Scope string_scope.
Local Open Scope list_scope.
Local Open Scope Z_scope.

Infix "+++" := String.append (right associativity, at level 60).

(** ** Characters that a string literal cannot hold *)

Definition nl : string := String (ascii_of_nat 10) EmptyString.
Definition tab : string := String (ascii_of_nat 9) EmptyString.
Definition dq : string := String (ascii_of_nat 34) EmptyString.

(** ** printf conversions *)

Definition uint32 (z : Z) : Z := z mod 2 ^ 32.
Definition uint64 (z : Z) : Z := z mod 2 ^ 64.

(** Decimal text of a non-negative number, no sign, no padding. *)
Definition decimal (z : Z) : string :=
  NilZero.string_of_uint (N.to_uint (Z.to_N z)).

(** [%u] of an [unsigned int], [%lu] of an [unsigned long], [%zu] of a
    [size_t] (64-bit [long] and [size_t]), [%d] of an [int]. *)
Definition fmt_u (z : Z) : string := decimal (uint32 z).
Definition fmt_lu (z : Z) : string := decimal (uint64 z).
Definition fmt_zu (n : nat) : string := decimal (uint64 (Z.of_nat n)).
Definition fmt_d (z : Z) : string := NilZero.string_of_int (Z.to_int z).

(** [snprintf(s, size, ...)] keeps at most [size - 1] characters of the
    formatted text; the terminating NUL takes the last cell. *)
Definition snprintf (size : nat) (formatted : string) : string :=
  substring 0 (size - 1) formatted.

(** ** Data model *)

Definition N_REC : Z := 10001.

Record kv_pair : Type := mk_kv { key : string; value : string }.

(** [sizeof(s)] for [char s[128]]. *)
Definition sizeof_s : nat := 128.

(** One pass of the body of the fill loop of [gen_plan_basic]. *)
Definition fill_pair (i : Z) : kv_pair :=
  let s := snprintf sizeof_s ("key " +++ fmt_u i) in
  let k := s in
  let s := snprintf sizeof_s ("value " +++ fmt_u i) in
  let v := s in
  {| key := k; value := v |}.

(** Iterations left before [i < N_REC] fails: the loop's variant. *)
Definition fill_left (i : Z) : nat := Z.to_nat (N_REC - i).
Arguments fill_left : simpl never.
#[local] Opaque fill_left.

(** [for (unsigned int i = 0; i < N_REC; i++) { ...; data.push_back(p); }]
    from the state [(i, data)]; [i++] wraps at 32 bits. *)
Equations? fill_loop (i : Z) (data : list kv_pair) : list kv_pair
  by wf (fill_left i) lt :=
  fill_loop i data with Z_lt_dec i N_REC := {
    | left _ => fill_loop (uint32 (i + 1)) (data ++ [fill_pair i]);
    | right _ => data }.
Proof.
  Transparent fill_left.
  unfold fill_left, uint32, N_REC in *.
  destruct (Z_lt_dec i 0).
  - pose proof (Z.mod_pos_bound (i + 1) (2 ^ 32) ltac:(lia)). lia.
  - rewrite Z.mod_small by lia. lia.
Qed.

Definition fill_data : list kv_pair := fill_loop 0 [].

(** ** The outside world

    A [string] stands for the bytes of a C string before its NUL.  The
    header [gdbm.h] belongs to the library, not to this program, so the
    three constants the program takes from it are variables of the
    section [Testgen] below. *)

Record World : Type := {
  (** [gdbm_open(path, block_size, flags, mode, NULL) != NULL] *)
  gdbm_open_ok : string -> Z -> Z -> Z -> bool;
  (** result of [gdbm_count(dbf, &count)] and the count it stores *)
  gdbm_count_rc : Z;
  gdbm_count_val : Z;
  (** result of the [n]-th [gdbm_store(dbf, key, value, flag)] of the run *)
  gdbm_store_rc : nat -> string -> string -> Z -> Z;
  (** [fopen(path, "w") != NULL] *)
  fopen_ok : string -> bool;
  (** [time(NULL)] *)
  time_now : Z
}.

Inductive event : Type :=
| EvGdbmOpen (path : string) (block_size flags mode : Z) (ok : bool)
| EvGdbmCount (rc count : Z)
| EvGdbmStore (k v : string) (flag rc : Z)
| EvGdbmClose
| EvFopen (path : string) (ok : bool)
| EvFprintf (text : string)
| EvFclose
| EvStderr (text : string)
| EvAssertFail.

(** How the process ends: [main] returns [status], or [abort()] raises
    SIGABRT after a failed [assert].  The build line in the head comment of
    the source, [g++ -Wall -O2 -o testgen testgen.cc -lgdbm], does not
    define [NDEBUG], so the assertion is compiled in. *)
Inductive outcome : Type :=
| Exit (status : Z)
| Aborted.

(** A run is what happened, in order, and how it ended.  Both plan
    functions are called as [return gen_plan_...(...)] from [main], so a
    [return n] inside them ends the process with status [n]. *)
Definition run : Type := list event * outcome.

Definition trace (r : run) : list event := fst r.
Definition result (r : run) : outcome := snd r.

Definition emit (e : event) (k : run) : run := (e :: fst k, snd k).
Definition return_ (n : Z) : run := ([], Exit n).
Definition assert_ (c : bool) (k : run) : run :=
  if c then k else ([EvAssertFail], Aborted).

Notation "e ;; k" := (emit e k) (at level 61, right associativity).

(** ** JSON text *)

(** The format string shared by the first [fprintf(f, ...)] of both plan
    functions, with its two conversions already formatted. *)
Definition json_head (generated_time data_records : string) : string :=
  "{" +++
  "  " +++ dq +++ "generated_by" +++ dq +++ ":" +++ dq +++ "testgen" +++ dq +++ "," +++
  "  " +++ dq +++ "generated_time" +++ dq +++ ":" +++ dq +++ generated_time +++ dq +++ "," +++
  "  " +++ dq +++ "data_records" +++ dq +++ ": " +++ data_records +++ "," +++
  "  " +++ dq +++ "data" +++ dq +++ ": [".

Definition json_tail : string := "]}" +++ nl.

(** [fprintf(f, "%s[\"%s\",\"%s\"]", first ? "" : ",", key, value)] *)
Definition json_item (first : bool) (p : kv_pair) : string :=
  (if first then EmptyString else ",") +++
  "[" +++ dq +++ key p +++ dq +++ "," +++ dq +++ value p +++ dq +++ "]".

(** The second [for (auto & p : data)] of [gen_plan_basic]. *)
Fixpoint json_loop (first : bool) (data : list kv_pair) (k : run) : run :=
  match data with
  | [] => k
  | p :: rest =>
      EvFprintf (json_item first p) ;;
      json_loop (if first then false else first) rest k
  end.

Section Testgen.

Variables GDBM_NEWDB GDBM_NUMSYNC GDBM_REPLACE : Z.
Variable w : World.

Definition open_flags (numsync : bool) : Z :=
  Z.lor GDBM_NEWDB (if numsync then GDBM_NUMSYNC else 0).

(** [0666] *)
Definition mode_0666 : Z := 438.

Definition gen_plan_empty (numsync : bool) (db_fn json_fn : string) : run :=
  let dbf := gdbm_open_ok w db_fn 512 (open_flags numsync) mode_0666 in
  EvGdbmOpen db_fn 512 (open_flags numsync) mode_0666 dbf ;;
  if negb dbf then
    EvStderr ("gdbm_open failed" +++ nl) ;;
    return_ 1
  else
    let rc := gdbm_count_rc w in
    let count := gdbm_count_val w in
    EvGdbmCount rc count ;;
    if negb (rc =? 0) then
      EvStderr ("gdbm_count failed" +++ nl) ;;
      return_ 1
    else
      assert_ (count =? 0) (
      EvGdbmClose ;;
      let f := fopen_ok w json_fn in
      EvFopen json_fn f ;;
      if negb f then
        EvStderr ("fopen failed" +++ nl) ;;
        return_ 1
      else
        let t := time_now w in
        EvFprintf (json_head (fmt_lu t) (fmt_u 0)) ;;
        EvFprintf json_tail ;;
        EvFclose ;;
        return_ 0).

(** The first [for (auto & p : data)] of [gen_plan_basic]; [n] counts the
    [gdbm_store] calls made so far, [k] is the code after the loop. *)
Fixpoint store_loop (n : nat) (data : list kv_pair) (k : run) : run :=
  match data with
  | [] => k
  | p :: rest =>
      let rc := gdbm_store_rc w n (key p) (value p) GDBM_REPLACE in
      EvGdbmStore (key p) (value p) GDBM_REPLACE rc ;;
      if negb (rc =? 0) then
        EvStderr ("gdbm_store failed, rc " +++ fmt_d rc +++
                  ", key " +++ key p +++ nl) ;;
        return_ 1
      else
        store_loop (S n) rest k
  end.

Definition gen_plan_basic (numsync : bool) (db_fn json_fn : string) : run :=
  let data := fill_data in
  let dbf := gdbm_open_ok w db_fn 512 (open_flags numsync) mode_0666 in
  EvGdbmOpen db_fn 512 (open_flags numsync) mode_0666 dbf ;;
  if negb dbf then
    EvStderr ("gdbm_open failed" +++ nl) ;;
    return_ 1
  else
    store_loop 0 data (
    EvGdbmClose ;;
    let f := fopen_ok w json_fn in
    EvFopen json_fn f ;;
    if negb f then
      EvStderr ("fopen failed" +++ nl) ;;
      return_ 1
    else
      let t := time_now w in
      EvFprintf (json_head (fmt_lu t) (fmt_zu (List.length data))) ;;
      json_loop true data (
      EvFprintf json_tail ;;
      EvFclose ;;
      return_ 0)).

Definition usage (progname : string) (k : run) : run :=
  EvStderr ("Usage: " +++ progname +++
            " -o output-db -j output-json [options]" +++ nl) ;;
  EvStderr (nl +++
    "Required Options:" +++ nl +++
    tab +++ "-o DB-FILE" +++ tab +++ "Output db" +++ nl +++
    tab +++ "-j JSON-FILE" +++ tab +++ "Output JSON metadata to file" +++ nl +++
    "Options:" +++ nl +++
    tab +++ "-p PLAN" +++ tab +++ "Generate according to test-plan PLAN" +++ nl +++
    tab +++ tab +++ tab +++ "Available plans: basic, empty" +++ nl +++
    tab +++ "-n Make DB numsync" +++ nl) ;;
  k.

(** What one call of [getopt(argc, argv, "o:j:p:n")] hands back before it
    returns -1: an option letter of the list with its [optarg], or
    anything else. *)
Inductive getopt_result : Type :=
| Opt_o (optarg : string)
| Opt_j (optarg : string)
| Opt_p (optarg : string)
| Opt_n
| Opt_other.

(** The locals of [main]; [None] is the NULL pointer. *)
Record locals : Type := {
  out_fn : option string;
  out_json : option string;
  plan : string;
  numsync : bool
}.

Definition main_init : locals :=
  {| out_fn := None; out_json := None; plan := "basic"; numsync := false |}.

(** The dispatch at the end of [main], past the NULL checks. *)
Definition dispatch (plan : string) (numsync : bool) (fn json : string) : run :=
  if String.eqb plan "basic" then gen_plan_basic numsync fn json
  else if String.eqb plan "empty" then gen_plan_empty numsync fn json
  else
    EvStderr ("Unknown test plan " +++ plan +++ nl) ;;
    return_ 1.

(** The [while ((opt = getopt(...)) != -1) switch (opt) ...] of [main]:
    [opts] are the results of the successive [getopt] calls; [None] is the
    [default:] case, which leaves [main] through [usage]. *)
Fixpoint getopt_loop (opts : list getopt_result) (l : locals) : option locals :=
  match opts with
  | [] => Some l
  | Opt_o a :: rest =>
      getopt_loop rest
        {| out_fn := Some a; out_json := out_json l;
           plan := plan l; numsync := numsync l |}
  | Opt_j a :: rest =>
      getopt_loop rest
        {| out_fn := out_fn l; out_json := Some a;
           plan := plan l; numsync := numsync l |}
  | Opt_p a :: rest =>
      getopt_loop rest
        {| out_fn := out_fn l; out_json := out_json l;
           plan := a; numsync := numsync l |}
  | Opt_n :: rest =>
      getopt_loop rest
        {| out_fn := out_fn l; out_json := out_json l;
           plan := plan l; numsync := true |}
  | Opt_other :: _ => None
  end.

Definition main (progname : string) (opts : list getopt_result) : run :=
  match getopt_loop opts main_init with
  | None => usage progname (return_ 1)
  | Some l =>
      match out_fn l, out_json l with
      | Some fn, Some json => dispatch (plan l) (numsync l) fn json
      | _, _ => usage progname (return_ 1)
      end
  end.

End Testgen.

(** ** Reading a trace *)

(** The [gdbm_store] calls of a trace that returned 0. *)
Fixpoint stores_ok (tr : list event) : list kv_pair :=
  match tr with
  | [] => []
  | EvGdbmStore k v _ rc :: rest =>
      if rc =? 0 then mk_kv k v :: stores_ok rest else stores_ok rest
  | _ :: rest => stores_ok rest
  end.

(** All [gdbm_store] calls of a trace, failed ones too. *)
Fixpoint store_calls (tr : list event) : list kv_pair :=
  match tr with
  | [] => []
  | EvGdbmStore k v _ _ :: rest => mk_kv k v :: store_calls rest
  | _ :: rest => store_calls rest
  end.

(** The pieces written to the JSON stream, in order. *)
Fixpoint file_chunks (tr : list event) : list string :=
  match tr with
  | [] => []
  | EvFprintf s :: rest => s :: file_chunks rest
  | _ :: rest => file_chunks rest
  end.

Definition is_fopen (e : event) : bool :=
  match e with EvFopen _ _ => true | _ => false end.

Definition is_fopen_ok (e : event) : bool :=
  match e with EvFopen _ true => true | _ => false end.

Definition is_gdbm_open (e : event) : bool :=
  match e with EvGdbmOpen _ _ _ _ _ => true | _ => false end.

Definition is_gdbm_open_ok (e : event) : bool :=
  match e with EvGdbmOpen _ _ _ _ true => true | _ => false end.

Definition is_gdbm_close (e : event) : bool :=
  match e with EvGdbmClose => true | _ => false end.

(** The content of the JSON file a run leaves behind: [None] when the run
    never got a stream on it, so that the file is as it was before. *)
Definition json_file (tr : list event) : option string :=
  if existsb is_fopen_ok tr
  then Some (String.concat EmptyString (file_chunks tr))
  else None.

(** ** Auxiliary definitions for the statements *)

(** [start, start + 1, ...], [len] numbers. *)
Fixpoint zseq (start : Z) (len : nat) : list Z :=
  match len with
  | O => []
  | S n => start :: zseq (start + 1) n
  end.

(** Both texts formatted for index [i] leave room for the NUL in [s]. *)
Definition fits (i : Z) : bool :=
  (String.length ("key " +++ fmt_u i) <? sizeof_s)%nat &&
  (String.length ("value " +++ fmt_u i) <? sizeof_s)%nat.

(** Record [i] as the plan means it. *)
Definition record (i : Z) : kv_pair :=
  mk_kv ("key " +++ decimal i) ("value " +++ decimal i).

(** The texts the JSON loop prints for [data]. *)
Fixpoint json_items (first : bool) (data : list kv_pair) : list string :=
  match data with
  | [] => []
  | p :: rest => json_item first p :: json_items false rest
  end.

(** The [gdbm_store] calls for [data], numbered from [n], all return 0. *)
Definition stores_succeed (REPLACE : Z) (w : World) (n : nat)
    (data : list kv_pair) : Prop :=
  forall j p, nth_error data j = Some p ->
    gdbm_store_rc w (n + j) (key p) (value p) REPLACE = 0.

(** The event of a [gdbm_store] of [p] that returns [rc]. *)
Definition store_ev (REPLACE : Z) (rc : Z) (p : kv_pair) : event :=
  EvGdbmStore (key p) (value p) REPLACE rc.

(** The diagnostic of a failed [gdbm_store]. *)
Definition store_failed_msg (rc : Z) (p : kv_pair) : string :=
  "gdbm_store failed, rc " +++ fmt_d rc +++ ", key " +++ key p +++ nl.

(** The traces of the four ways through [gen_plan_basic]: the store does
    not open; a write fails after the writes of [pre]; the JSON file does
    not open; everything succeeds. *)
Definition tr_open_fail (db : string) (flags : Z) : list event :=
  [EvGdbmOpen db 512 flags mode_0666 false;
   EvStderr ("gdbm_open failed" +++ nl)].

Definition tr_store_fail (REPLACE : Z) (db : string) (flags : Z)
    (pre : list kv_pair) (p : kv_pair) (rc : Z) : list event :=
  EvGdbmOpen db 512 flags mode_0666 true ::
  map (store_ev REPLACE 0) pre ++
  [store_ev REPLACE rc p; EvStderr (store_failed_msg rc p)].

Definition tr_fopen_fail (REPLACE : Z) (db : string) (flags : Z)
    (json : string) (data : list kv_pair) : list event :=
  EvGdbmOpen db 512 flags mode_0666 true ::
  map (store_ev REPLACE 0) data ++
  [EvGdbmClose; EvFopen json false; EvStderr ("fopen failed" +++ nl)].

Definition tr_ok (REPLACE : Z) (db : string) (flags : Z)
    (json : string) (t : Z) (data : list kv_pair) : list event :=
  EvGdbmOpen db 512 flags mode_0666 true ::
  map (store_ev REPLACE 0) data ++
  EvGdbmClose :: EvFopen json true ::
  EvFprintf (json_head (fmt_lu t) (fmt_zu (List.length data))) ::
  map EvFprintf (json_items true data) ++
  [EvFprintf json_tail; EvFclose].

(** A store-engine call that reports failure, or the failed assertion on
    the count of a new store. *)
Definition engine_failed (e : event) : bool :=
  match e with
  | EvGdbmCount rc _ => negb (rc =? 0)
  | EvGdbmStore _ _ _ rc => negb (rc =? 0)
  | EvAssertFail => true
  | _ => false
  end.

(** An event with the flags given to [gdbm_open] blanked. *)
Definition erase_flags (e : event) : event :=
  match e with
  | EvGdbmOpen path block_size _ mode ok => EvGdbmOpen path block_size 0 mode ok
  | _ => e
  end.

(** The JSON text of the "empty" plan as the program prints it, for the
    timestamp text [ts]. *)
Definition empty_json (ts : string) : string :=
  "{  " +++ dq +++ "generated_by" +++ dq +++ ":" +++ dq +++ "testgen" +++ dq +++
  ",  " +++ dq +++ "generated_time" +++ dq +++ ":" +++ dq +++ ts +++ dq +++
  ",  " +++ dq +++ "data_records" +++ dq +++ ": 0" +++
  ",  " +++ dq +++ "data" +++ dq +++ ": []}" +++ nl.

(** The JSON document as a reader of the file sees it: the text up to
    the opening bracket of the data array, for the timestamp text [ts]
    and the text [n] of data_records; then the whole document for the
    array elements [elements], which stand between the brackets joined
    by single commas. *)
Definition json_open (ts n : string) : string :=
  "{  " +++ dq +++ "generated_by" +++ dq +++ ":" +++ dq +++ "testgen" +++ dq +++
  ",  " +++ dq +++ "generated_time" +++ dq +++ ":" +++ dq +++ ts +++ dq +++
  ",  " +++ dq +++ "data_records" +++ dq +++ ": " +++ n +++
  ",  " +++ dq +++ "data" +++ dq +++ ": [".

Definition json_document (ts n : string) (elements : list string) : string :=
  json_open ts n +++ String.concat "," elements +++ "]}" +++ nl.

(** The same document without any space. *)
Definition compact_empty_json (ts : string) : string :=
  "{" +++ dq +++ "generated_by" +++ dq +++ ":" +++ dq +++ "testgen" +++ dq +++
  "," +++ dq +++ "generated_time" +++ dq +++ ":" +++ dq +++ ts +++ dq +++
  "," +++ dq +++ "data_records" +++ dq +++ ":0" +++
  "," +++ dq +++ "data" +++ dq +++ ":[]}" +++ nl.

(** A world in which every call succeeds on an empty new store. *)
Definition world_ok : World :=
  {| gdbm_open_ok := fun _ _ _ _ => true;
     gdbm_count_rc := 0;
     gdbm_count_val := 0;
     gdbm_store_rc := fun _ _ _ _ => 0;
     fopen_ok := fun _ => true;
     time_now := 1700000000 |}.

(** The same world one hour later. *)
Definition world_late : World :=
  {| gdbm_open_ok := fun _ _ _ _ => true;
     gdbm_count_rc := 0;
     gdbm_count_val := 0;
     gdbm_store_rc := fun _ _ _ _ => 0;
     fopen_ok := fun _ => true;
     time_now := 1700003600 |}.

(** A world whose new store reports five records. *)
Definition world_count5 : World :=
  {| gdbm_open_ok := fun _ _ _ _ => true;
     gdbm_count_rc := 0;
     gdbm_count_val := 5;
     gdbm_store_rc := fun _ _ _ _ => 0;
     fopen_ok := fun _ => true;
     time_now := 1700000000 |}.

(** A world in which [gdbm_count] fails. *)
Definition world_count_fails : World :=
  {| gdbm_open_ok := fun _ _ _ _ => true;
     gdbm_count_rc := -1;
     gdbm_count_val := 0;
     gdbm_store_rc := fun _ _ _ _ => 0;
     fopen_ok := fun _ => true;
     time_now := 1700000000 |}.

(** A world in which the third [gdbm_store] fails. *)
Definition world_store_fails : World :=
  {| gdbm_open_ok := fun _ _ _ _ => true;
     gdbm_count_rc := 0;
     gdbm_count_val := 0;
     gdbm_store_rc := fun n _ _ _ => if (n =? 2)%nat then -1 else 0;
     fopen_ok := fun _ => true;
     time_now := 1700000000 |}.

(** ** Auxiliary definitions for further properties *)

(** An event that writes to the error stream: an [fprintf(stderr, ...)]
    of the program, or the message that a failed [assert] prints before
    it calls [abort()]. *)
Definition is_stderr (e : event) : bool :=
  match e with
  | EvStderr _ => true
  | EvAssertFail => true
  | _ => false
  end.

Definition is_gdbm_count (e : event) : bool :=
  match e with EvGdbmCount _ _ => true | _ => false end.

Definition is_gdbm_store (e : event) : bool :=
  match e with EvGdbmStore _ _ _ _ => true | _ => false end.

(** A [gdbm_store] event carries the flag [flag]; other events pass. *)
Definition store_flag_is (flag : Z) (e : event) : bool :=
  match e with EvGdbmStore _ _ f _ => f =? flag | _ => true end.

(** Where the store handle [dbf] and the stream [f] stand. *)
Inductive handles : Type :=
| NoHandle
| StoreOpen
| StoreClosed
| StreamOpen
| StreamClosed.

(** The use of the two handles that is in order: [gdbm_count],
    [gdbm_store] and [gdbm_close] on an open store only; [fopen] once the
    store is closed; [fprintf] and [fclose] on an open stream only;
    nothing but diagnostics once the stream is closed.  A failed
    [gdbm_open] or [fopen] gives no handle. *)
Definition protocol_step (s : handles) (e : event) : option handles :=
  match e, s with
  | EvStderr _, _ => Some s
  | EvAssertFail, _ => Some s
  | EvGdbmOpen _ _ _ _ ok, NoHandle => Some (if ok then StoreOpen else NoHandle)
  | EvGdbmCount _ _, StoreOpen => Some StoreOpen
  | EvGdbmStore _ _ _ _, StoreOpen => Some StoreOpen
  | EvGdbmClose, StoreOpen => Some StoreClosed
  | EvFopen _ ok, StoreClosed => Some (if ok then StreamOpen else StoreClosed)
  | EvFprintf _, StreamOpen => Some StreamOpen
  | EvFclose, StreamOpen => Some StreamClosed
  | _, _ => None
  end.

Fixpoint run_protocol (s : handles) (tr : list event) : option handles :=
  match tr with
  | [] => Some s
  | e :: rest =>
      match protocol_step s e with
      | Some s' => run_protocol s' rest
      | None => None
      end
  end.

(** The traces of the ways through [gen_plan_empty] past a successful
    [gdbm_open]: [gdbm_count] fails; the count is not zero; the JSON file
    does not open; everything succeeds. *)
Definition tr_empty_count_fail (db : string) (flags rc count : Z) : list event :=
  [EvGdbmOpen db 512 flags mode_0666 true;
   EvGdbmCount rc count;
   EvStderr ("gdbm_count failed" +++ nl)].

Definition tr_empty_assert (db : string) (flags count : Z) : list event :=
  [EvGdbmOpen db 512 flags mode_0666 true;
   EvGdbmCount 0 count;
   EvAssertFail].

Definition tr_empty_fopen_fail (db : string) (flags : Z) (json : string)
    : list event :=
  [EvGdbmOpen db 512 flags mode_0666 true;
   EvGdbmCount 0 0; EvGdbmClose;
   EvFopen json false; EvStderr ("fopen failed" +++ nl)].

Definition tr_empty_ok (db : string) (flags : Z) (json : string) (t : Z)
    : list event :=
  [EvGdbmOpen db 512 flags mode_0666 true;
   EvGdbmCount 0 0; EvGdbmClose;
   EvFopen json true;
   EvFprintf (json_head (fmt_lu t) (fmt_u 0));
   EvFprintf json_tail; EvFclose].

(** The arguments of the [-o], [-j] and [-p] options of a command line,
    in order, and whether it has [-n] or an option [getopt] rejects. *)
Definition opt_o_args (opts : list getopt_result) : list string :=
  flat_map (fun o => match o with Opt_o a => [a] | _ => [] end) opts.

Definition opt_j_args (opts : list getopt_result) : list string :=
  flat_map (fun o => match o with Opt_j a => [a] | _ => [] end) opts.

Definition opt_p_args (opts : list getopt_result) : list string :=
  flat_map (fun o => match o with Opt_p a => [a] | _ => [] end) opts.

Definition is_opt_n (o : getopt_result) : bool :=
  match o with Opt_n => true | _ => false end.

Definition is_opt_other (o : getopt_result) : bool :=
  match o with Opt_other => true | _ => false end.

(** A [gdbm_open] of an event is on the store [db] with the flags
    [flags], an [fopen] is on the file [json]; other events pass. *)
Definition names_ok (db json : string) (flags : Z) (e : event) : bool :=
  match e with
  | EvGdbmOpen path _ fl _ _ => String.eqb path db && (fl =? flags)
  | EvFopen path _ => String.eqb path json
  | _ => true
  end.

(** A world in which the store cannot be created. *)
Definition world_open_fails : World :=
  {| gdbm_open_ok := fun _ _ _ _ => false;
     gdbm_count_rc := 0;
     gdbm_count_val := 0;
     gdbm_store_rc := fun _ _ _ _ => 0;
     fopen_ok := fun _ => true;
     time_now := 1700000000 |}.

(** A world in which the JSON file cannot be created. *)
Definition world_fopen_fails : World :=
  {| gdbm_open_ok := fun _ _ _ _ => true;
     gdbm_count_rc := 0;
     gdbm_count_val := 0;
     gdbm_store_rc := fun _ _ _ _ => 0;
     fopen_ok := fun _ => false;
     time_now := 1700000000 |}.

(** * Properties *)

Example decimal_0 : decimal 0 = "0".
Proof. reflexivity. Qed.

Example fill_pair_7 : fill_pair 7 = mk_kv "key 7" "value 7".
Proof. reflexivity. Qed.

Example fmt_d_neg : fmt_d (-1) = "-1".
Proof. reflexivity. Qed.

Example fmt_lu_failed_clock : fmt_lu (-1) = "18446744073709551615".
Proof. reflexivity. Qed.

Example record_10000 : record 10000 = mk_kv "key 10000" "value 10000".
Proof. reflexivity. Qed.

Example json_items_two :
  json_items true [record 0; record 1] =
  ["[" +++ dq +++ "key 0" +++ dq +++ "," +++ dq +++ "value 0" +++ dq +++ "]";
   ",[" +++ dq +++ "key 1" +++ dq +++ "," +++ dq +++ "value 1" +++ dq +++ "]"].
Proof. reflexivity. Qed.

Example empty_run_numsync :
  gen_plan_empty 3 8192 world_ok true "t.db" "t.json" =
  ([EvGdbmOpen "t.db" 512 8195 438 true; EvGdbmCount 0 0; EvGdbmClose;
    EvFopen "t.json" true;
    EvFprintf (json_head "1700000000" "0"); EvFprintf json_tail; EvFclose],
   Exit 0).
Proof. reflexivity. Qed.

Example main_without_output_names :
  result (main 3 8192 1 world_ok "testgen" [Opt_p "basic"]) = Exit 1 /\
  existsb is_gdbm_open (trace (main 3 8192 1 world_ok "testgen" [Opt_p "basic"]))
    = false.
Proof. split; reflexivity. Qed.

(** ** Index ranges *)

Lemma zseq_length start len : List.length (zseq start len) = len.
Proof. revert start; induction len; simpl; intros; auto. Qed.

Lemma zseq_nth start len (k : nat) :
  (k < len)%nat -> nth_error (zseq start len) k = Some (start + Z.of_nat k).
Proof.
  revert start k; induction len as [|n IH]; intros start k Hk; [lia|].
  destruct k as [|k]; simpl.
  - f_equal; lia.
  - rewrite IH by lia. f_equal; lia.
Qed.

Lemma zseq_In start len z :
  In z (zseq start len) <-> start <= z < start + Z.of_nat len.
Proof.
  revert start; induction len as [|n IH]; intros start; simpl.
  - split; [tauto | lia].
  - rewrite IH. lia.
Qed.

Lemma zseq_NoDup start len : NoDup (zseq start len).
Proof.
  revert start; induction len as [|n IH]; intros start; simpl; constructor.
  - rewrite zseq_In. lia.
  - apply IH.
Qed.

Lemma zseq_app start a b :
  zseq start (a + b) = zseq start a ++ zseq (start + Z.of_nat a) b.
Proof.
  revert start; induction a as [|a IH]; intros start.
  - simpl. f_equal. lia.
  - cbn [zseq Nat.add app]. rewrite IH. do 3 f_equal. lia.
Qed.

(** ** The fill loop, in closed form *)

Lemma fill_loop_closed (n : nat) : forall i data,
  0 <= i -> Z.of_nat n = N_REC - i ->
  fill_loop i data = data ++ map fill_pair (zseq i n).
Proof.
  induction n as [|n IH]; intros i data Hi Hn; simp fill_loop;
    destruct (Z_lt_dec i N_REC) as [Hlt|Hge]; simpl; try lia.
  - now rewrite app_nil_r.
  - assert (Hw : uint32 (i + 1) = i + 1).
    { unfold uint32. apply Z.mod_small. unfold N_REC in *. lia. }
    rewrite Hw, IH by lia.
    now rewrite <- app_assoc.
Qed.

Lemma fill_data_closed :
  fill_data = map fill_pair (zseq 0 (Z.to_nat N_REC)).
Proof.
  unfold fill_data.
  now rewrite (fill_loop_closed (Z.to_nat N_REC)) by (unfold N_REC; lia).
Qed.

(** ** Formatting *)

Lemma substring_all (n : nat) (s : string) :
  (String.length s <= n)%nat -> substring 0 n s = s.
Proof.
  revert n; induction s as [|c s IH]; intros [|n] H; simpl in *;
    try reflexivity; try lia.
  f_equal. apply IH. lia.
Qed.

Lemma snprintf_fits (size : nat) (s : string) :
  (String.length s < size)%nat -> snprintf size s = s.
Proof. intros H. unfold snprintf. apply substring_all. lia. Qed.

Lemma to_uint_nonnil (n : N) : N.to_uint n <> Decimal.Nil.
Proof.
  destruct n as [|p]; [discriminate|].
  apply DecimalPos.Unsigned.to_uint_nonnil.
Qed.

Lemma decimal_inj (a b : Z) :
  0 <= a -> 0 <= b -> decimal a = decimal b -> a = b.
Proof.
  intros Ha Hb H. unfold decimal in H.
  apply (f_equal NilZero.uint_of_string) in H.
  rewrite !NilZero.usu in H by apply to_uint_nonnil.
  injection H as H.
  apply DecimalN.Unsigned.to_uint_inj in H.
  now apply Z2N.inj.
Qed.

Lemma fmt_u_small (i : Z) : 0 <= i < 2 ^ 32 -> fmt_u i = decimal i.
Proof. intros H. unfold fmt_u, uint32. now rewrite Z.mod_small. Qed.

Lemma fmt_lu_small (t : Z) : 0 <= t < 2 ^ 64 -> fmt_lu t = decimal t.
Proof. intros H. unfold fmt_lu, uint64. now rewrite Z.mod_small. Qed.

Lemma fits_all : forallb fits (zseq 0 (Z.to_nat N_REC)) = true.
Proof. vm_compute. reflexivity. Qed.

Lemma fits_range (i : Z) : 0 <= i < N_REC -> fits i = true.
Proof.
  intros H. pose proof fits_all as Hall.
  rewrite forallb_forall in Hall. apply Hall.
  apply zseq_In. unfold N_REC in *. lia.
Qed.

Lemma fill_pair_record (i : Z) : 0 <= i < N_REC -> fill_pair i = record i.
Proof.
  intros H. pose proof (fits_range i H) as Hf.
  unfold fits in Hf. apply andb_prop in Hf as [Hk Hv].
  apply Nat.ltb_lt in Hk, Hv.
  unfold fill_pair, record.
  rewrite !snprintf_fits by assumption.
  rewrite fmt_u_small by (unfold N_REC in H; lia).
  reflexivity.
Qed.

Lemma map_ext_zseq {A} (f g : Z -> A) start len :
  (forall i, start <= i < start + Z.of_nat len -> f i = g i) ->
  map f (zseq start len) = map g (zseq start len).
Proof.
  intros H. apply map_ext_in. intros i Hi. apply H. now apply zseq_In.
Qed.

Lemma fill_data_records : fill_data = map record (zseq 0 (Z.to_nat N_REC)).
Proof.
  rewrite fill_data_closed. apply map_ext_zseq.
  intros i Hi. apply fill_pair_record. unfold N_REC in *. lia.
Qed.

Lemma fill_data_length : List.length fill_data = Z.to_nat N_REC.
Proof. now rewrite fill_data_closed, length_map, zseq_length. Qed.

Lemma record_key_inj (a b : Z) :
  0 <= a -> 0 <= b -> key (record a) = key (record b) -> a = b.
Proof.
  intros Ha Hb H. simpl in H. injection H as H. now apply decimal_inj.
Qed.

Lemma NoDup_map_inj_in {A B} (f : A -> B) (l : list A) :
  (forall x y, In x l -> In y l -> f x = f y -> x = y) ->
  NoDup l -> NoDup (map f l).
Proof.
  induction l as [|a l IH]; intros Hinj Hnd; simpl; [constructor|].
  inversion Hnd as [|? ? Hnotin Hnd']; subst.
  constructor.
  - rewrite in_map_iff. intros [x [Hfx Hx]].
    apply Hnotin. rewrite (Hinj a x); auto; [now left | now right].
  - apply IH; auto. intros x y Hx Hy. apply Hinj; now right.
Qed.

Lemma fill_data_keys_NoDup : NoDup (map key fill_data).
Proof.
  rewrite fill_data_records, map_map.
  apply NoDup_map_inj_in; [|apply zseq_NoDup].
  intros x y Hx Hy. rewrite zseq_In in Hx, Hy.
  apply record_key_inj; lia.
Qed.

(** ** Reading traces piecewise *)

Lemma store_calls_app a b : store_calls (a ++ b) = store_calls a ++ store_calls b.
Proof.
  induction a as [|e a IH]; simpl; [reflexivity|].
  destruct e; simpl; now rewrite ?IH.
Qed.

Lemma stores_ok_app a b : stores_ok (a ++ b) = stores_ok a ++ stores_ok b.
Proof.
  induction a as [|e a IH]; simpl; [reflexivity|].
  destruct e; simpl; rewrite ?IH; try reflexivity.
  now destruct (rc =? 0).
Qed.

Lemma file_chunks_app a b : file_chunks (a ++ b) = file_chunks a ++ file_chunks b.
Proof.
  induction a as [|e a IH]; simpl; [reflexivity|].
  destruct e; simpl; now rewrite ?IH.
Qed.

Lemma kv_eta (p : kv_pair) : mk_kv (key p) (value p) = p.
Proof. now destruct p. Qed.

Lemma store_calls_store_ev R rc data :
  store_calls (map (store_ev R rc) data) = data.
Proof.
  induction data as [|p data IH]; simpl; [reflexivity|].
  now rewrite IH, kv_eta.
Qed.

Lemma stores_ok_store_ev R data :
  stores_ok (map (store_ev R 0) data) = data.
Proof.
  induction data as [|p data IH]; simpl; [reflexivity|].
  now rewrite IH, kv_eta.
Qed.

Lemma file_chunks_store_ev R rc data :
  file_chunks (map (store_ev R rc) data) = [].
Proof. induction data; simpl; auto. Qed.

Lemma existsb_store_ev (f : event -> bool) R rc data :
  (forall p, f (store_ev R rc p) = false) ->
  existsb f (map (store_ev R rc) data) = false.
Proof.
  intros H. induction data as [|p data IH]; simpl; [reflexivity|].
  now rewrite H, IH.
Qed.

Lemma store_calls_fprintf l : store_calls (map EvFprintf l) = [].
Proof. induction l; simpl; auto. Qed.

Lemma stores_ok_fprintf l : stores_ok (map EvFprintf l) = [].
Proof. induction l; simpl; auto. Qed.

Lemma file_chunks_fprintf l : file_chunks (map EvFprintf l) = l.
Proof. induction l; simpl; congruence. Qed.

Lemma existsb_fprintf (f : event -> bool) l :
  (forall s, f (EvFprintf s) = false) ->
  existsb f (map EvFprintf l) = false.
Proof.
  intros H. induction l as [|s l IH]; simpl; [reflexivity|].
  now rewrite H, IH.
Qed.

(** ** The loops of [gen_plan_basic] *)

Lemma json_loop_closed first data k :
  json_loop first data k =
  (map EvFprintf (json_items first data) ++ trace k, result k).
Proof.
  revert first; induction data as [|p data IH]; intros first.
  - now destruct k.
  - cbn [json_loop json_items map app]. unfold emit.
    replace (if first then false else first) with false by now destruct first.
    now rewrite IH.
Qed.

Lemma json_items_tail {A} (f : A -> kv_pair) (g : A -> bool) (l : list A) :
  (forall a, In a l -> g a = false) ->
  json_items false (map f l) = map (fun a => json_item (g a) (f a)) l.
Proof.
  induction l as [|a l IH]; intros H; simpl; [reflexivity|].
  rewrite (H a) by now left. rewrite IH; [reflexivity|].
  intros b Hb. apply H. now right.
Qed.

Lemma json_items_indexed (f : Z -> kv_pair) (n : nat) :
  json_items true (map f (zseq 0 n)) =
  map (fun i => json_item (i =? 0) (f i)) (zseq 0 n).
Proof.
  destruct n as [|n]; [reflexivity|].
  cbn [zseq map json_items]. f_equal.
  apply json_items_tail. intros i Hi. apply zseq_In in Hi. lia.
Qed.

Lemma stores_succeed_tail R w n p data :
  stores_succeed R w n (p :: data) -> stores_succeed R w (S n) data.
Proof.
  intros H j q Hq. specialize (H (S j) q Hq).
  now replace (S n + j)%nat with (n + S j)%nat by lia.
Qed.

Lemma stores_succeed_head R w n p data :
  stores_succeed R w n (p :: data) ->
  gdbm_store_rc w n (key p) (value p) R = 0.
Proof.
  intros H. specialize (H O p eq_refl).
  now rewrite Nat.add_0_r in H.
Qed.

Lemma stores_succeed_cons R w n p data :
  gdbm_store_rc w n (key p) (value p) R = 0 ->
  stores_succeed R w (S n) data ->
  stores_succeed R w n (p :: data).
Proof.
  intros H0 H [|j] q Hq; simpl in Hq.
  - injection Hq as <-. now rewrite Nat.add_0_r.
  - replace (n + S j)%nat with (S n + j)%nat by lia. now apply H.
Qed.

Lemma store_loop_ok R w n data k :
  stores_succeed R w n data ->
  store_loop R w n data k = (map (store_ev R 0) data ++ trace k, result k).
Proof.
  revert n; induction data as [|p data IH]; intros n H.
  - now destruct k.
  - cbn [store_loop map app].
    rewrite (stores_succeed_head _ _ _ _ _ H). cbn [Z.eqb negb].
    rewrite IH by (eapply stores_succeed_tail; eauto).
    reflexivity.
Qed.

Lemma store_loop_fail R w n pre p post k :
  stores_succeed R w n pre ->
  gdbm_store_rc w (n + List.length pre) (key p) (value p) R <> 0 ->
  store_loop R w n (pre ++ p :: post) k =
  (map (store_ev R 0) pre ++
     [store_ev R (gdbm_store_rc w (n + List.length pre) (key p) (value p) R) p;
      EvStderr (store_failed_msg
        (gdbm_store_rc w (n + List.length pre) (key p) (value p) R) p)],
   Exit 1).
Proof.
  revert n; induction pre as [|q pre IH]; intros n Hpre Hrc.
  - cbn [List.length app map store_loop] in *. rewrite Nat.add_0_r in *.
    apply Z.eqb_neq in Hrc. rewrite Hrc. reflexivity.
  - cbn [List.length app map store_loop] in *.
    rewrite (stores_succeed_head _ _ _ _ _ Hpre). cbn [Z.eqb negb].
    replace (n + S (List.length pre))%nat with (S n + List.length pre)%nat in * by lia.
    rewrite (IH (S n)); [reflexivity | eapply stores_succeed_tail; eauto | assumption].
Qed.

(** Whatever the store answers, the store loop either goes through or
    stops at its first failed write. *)
Lemma store_loop_cases R w n data k :
  (stores_succeed R w n data /\
   store_loop R w n data k = (map (store_ev R 0) data ++ trace k, result k))
  \/
  (exists pre p post,
     data = pre ++ p :: post /\
     stores_succeed R w n pre /\
     gdbm_store_rc w (n + List.length pre) (key p) (value p) R <> 0 /\
     store_loop R w n data k =
     (map (store_ev R 0) pre ++
        [store_ev R (gdbm_store_rc w (n + List.length pre) (key p) (value p) R) p;
         EvStderr (store_failed_msg
           (gdbm_store_rc w (n + List.length pre) (key p) (value p) R) p)],
      Exit 1)).
Proof.
  revert n; induction data as [|p data IH]; intros n.
  - left. split; [intros [|j] q Hq; discriminate | now destruct k].
  - destruct (Z.eq_dec (gdbm_store_rc w n (key p) (value p) R) 0) as [H0|Hne].
    + destruct (IH (S n)) as [[Hall _]|(pre & q & post & -> & Hpre & Hrc & _)].
      * left. assert (Hs : stores_succeed R w n (p :: data))
          by now apply stores_succeed_cons.
        split; [assumption | now apply store_loop_ok].
      * right. exists (p :: pre), q, post.
        assert (Hs : stores_succeed R w n (p :: pre))
          by now apply stores_succeed_cons.
        replace (n + List.length (p :: pre))%nat
          with (S n + List.length pre)%nat by (simpl; lia).
        repeat split; try assumption.
        replace (S n + List.length pre)%nat
          with (n + List.length (p :: pre))%nat by (simpl; lia).
        apply (store_loop_fail R w n (p :: pre) q post k Hs).
        now replace (n + List.length (p :: pre))%nat
          with (S n + List.length pre)%nat by (simpl; lia).
    + right. exists [], p, data.
      assert (Hnil : stores_succeed R w n []) by (intros [|j] q Hq; discriminate).
      cbn [List.length app]. rewrite Nat.add_0_r.
      repeat split; try assumption.
      pose proof (store_loop_fail R w n [] p data k Hnil) as Hf.
      cbn [List.length app map] in Hf. rewrite Nat.add_0_r in Hf.
      now apply Hf.
Qed.

(** ** The four ways through [gen_plan_basic]

    [fill_data] is kept folded: the lemmas on the shape of a trace are
    proved for any list of records and used at [fill_data]. *)

#[local] Opaque fill_data.

Section BasicRuns.

Variables GDBM_NEWDB GDBM_NUMSYNC GDBM_REPLACE : Z.
Variable w : World.
Variables (numsync : bool) (db_fn json_fn : string).

Lemma gen_plan_basic_open_fail :
  gdbm_open_ok w db_fn 512 (open_flags GDBM_NEWDB GDBM_NUMSYNC numsync)
    mode_0666 = false ->
  gen_plan_basic GDBM_NEWDB GDBM_NUMSYNC GDBM_REPLACE w numsync db_fn json_fn =
  (tr_open_fail db_fn (open_flags GDBM_NEWDB GDBM_NUMSYNC numsync), Exit 1).
Proof.
  unfold gen_plan_basic. cbv zeta.
  generalize fill_data as data. intros data ->. reflexivity.
Qed.

Lemma gen_plan_basic_store_fail pre p post :
  gdbm_open_ok w db_fn 512 (open_flags GDBM_NEWDB GDBM_NUMSYNC numsync)
    mode_0666 = true ->
  fill_data = pre ++ p :: post ->
  stores_succeed GDBM_REPLACE w 0 pre ->
  gdbm_store_rc w (List.length pre) (key p) (value p) GDBM_REPLACE <> 0 ->
  gen_plan_basic GDBM_NEWDB GDBM_NUMSYNC GDBM_REPLACE w numsync db_fn json_fn =
  (tr_store_fail GDBM_REPLACE db_fn
     (open_flags GDBM_NEWDB GDBM_NUMSYNC numsync) pre p
     (gdbm_store_rc w (List.length pre) (key p) (value p) GDBM_REPLACE),
   Exit 1).
Proof.
  unfold gen_plan_basic. cbv zeta.
  intros -> -> Hpre Hrc. cbn [negb].
  rewrite (store_loop_fail GDBM_REPLACE w 0 pre p post) by assumption.
  reflexivity.
Qed.

Lemma gen_plan_basic_fopen_fail :
  gdbm_open_ok w db_fn 512 (open_flags GDBM_NEWDB GDBM_NUMSYNC numsync)
    mode_0666 = true ->
  stores_succeed GDBM_REPLACE w 0 fill_data ->
  fopen_ok w json_fn = false ->
  gen_plan_basic GDBM_NEWDB GDBM_NUMSYNC GDBM_REPLACE w numsync db_fn json_fn =
  (tr_fopen_fail GDBM_REPLACE db_fn
     (open_flags GDBM_NEWDB GDBM_NUMSYNC numsync) json_fn fill_data,
   Exit 1).
Proof.
  unfold gen_plan_basic. cbv zeta.
  generalize fill_data as data. intros data -> Hall ->. cbn [negb].
  rewrite store_loop_ok by assumption. reflexivity.
Qed.

Lemma gen_plan_basic_ok_run :
  gdbm_open_ok w db_fn 512 (open_flags GDBM_NEWDB GDBM_NUMSYNC numsync)
    mode_0666 = true ->
  stores_succeed GDBM_REPLACE w 0 fill_data ->
  fopen_ok w json_fn = true ->
  gen_plan_basic GDBM_NEWDB GDBM_NUMSYNC GDBM_REPLACE w numsync db_fn json_fn =
  (tr_ok GDBM_REPLACE db_fn (open_flags GDBM_NEWDB GDBM_NUMSYNC numsync)
     json_fn (time_now w) fill_data,
   Exit 0).
Proof.
  unfold gen_plan_basic. cbv zeta.
  generalize fill_data as data. intros data -> Hall ->. cbn [negb].
  rewrite store_loop_ok by assumption.
  unfold emit at 1. unfold emit at 1. unfold emit at 1. unfold emit at 1.
  rewrite json_loop_closed. reflexivity.
Qed.

(** The four ways are all the ways. *)
Lemma gen_plan_basic_cases :
  (gdbm_open_ok w db_fn 512 (open_flags GDBM_NEWDB GDBM_NUMSYNC numsync)
     mode_0666 = false /\
   gen_plan_basic GDBM_NEWDB GDBM_NUMSYNC GDBM_REPLACE w numsync db_fn json_fn =
   (tr_open_fail db_fn (open_flags GDBM_NEWDB GDBM_NUMSYNC numsync), Exit 1))
  \/
  (gdbm_open_ok w db_fn 512 (open_flags GDBM_NEWDB GDBM_NUMSYNC numsync)
     mode_0666 = true /\
   exists pre p post,
     fill_data = pre ++ p :: post /\
     stores_succeed GDBM_REPLACE w 0 pre /\
     gdbm_store_rc w (List.length pre) (key p) (value p) GDBM_REPLACE <> 0 /\
     gen_plan_basic GDBM_NEWDB GDBM_NUMSYNC GDBM_REPLACE
       w numsync db_fn json_fn =
     (tr_store_fail GDBM_REPLACE db_fn
        (open_flags GDBM_NEWDB GDBM_NUMSYNC numsync) pre p
        (gdbm_store_rc w (List.length pre) (key p) (value p) GDBM_REPLACE),
      Exit 1))
  \/
  (gdbm_open_ok w db_fn 512 (open_flags GDBM_NEWDB GDBM_NUMSYNC numsync)
     mode_0666 = true /\
   stores_succeed GDBM_REPLACE w 0 fill_data /\
   fopen_ok w json_fn = false /\
   gen_plan_basic GDBM_NEWDB GDBM_NUMSYNC GDBM_REPLACE w numsync db_fn json_fn =
   (tr_fopen_fail GDBM_REPLACE db_fn
      (open_flags GDBM_NEWDB GDBM_NUMSYNC numsync) json_fn fill_data,
    Exit 1))
  \/
  (gdbm_open_ok w db_fn 512 (open_flags GDBM_NEWDB GDBM_NUMSYNC numsync)
     mode_0666 = true /\
   stores_succeed GDBM_REPLACE w 0 fill_data /\
   fopen_ok w json_fn = true /\
   gen_plan_basic GDBM_NEWDB GDBM_NUMSYNC GDBM_REPLACE w numsync db_fn json_fn =
   (tr_ok GDBM_REPLACE db_fn (open_flags GDBM_NEWDB GDBM_NUMSYNC numsync)
      json_fn (time_now w) fill_data,
    Exit 0)).
Proof.
  destruct (gdbm_open_ok w db_fn 512
              (open_flags GDBM_NEWDB GDBM_NUMSYNC numsync) mode_0666) eqn:Hopen.
  - right.
    destruct (store_loop_cases GDBM_REPLACE w 0 fill_data ([], Exit 0))
      as [[Hall _]|(pre & p & post & Hsplit & Hpre & Hrc & _)].
    + right. destruct (fopen_ok w json_fn) eqn:Hf.
      * right. split; [reflexivity|]. split; [assumption|].
        split; [reflexivity|]. now apply gen_plan_basic_ok_run.
      * left. split; [reflexivity|]. split; [assumption|].
        split; [reflexivity|]. now apply gen_plan_basic_fopen_fail.
    + left. split; [reflexivity|]. exists pre, p, post.
      split; [assumption|]. split; [assumption|]. split; [assumption|].
      now apply (gen_plan_basic_store_fail pre p post).
  - left. split; [reflexivity|]. now apply gen_plan_basic_open_fail.
Qed.

End BasicRuns.

(** ** What the four traces show *)

Lemma append_nil_r (s : string) : s +++ EmptyString = s.
Proof. induction s as [|c s IH]; simpl; congruence. Qed.

Lemma append_assoc (a b c : string) : (a +++ b) +++ c = a +++ b +++ c.
Proof. induction a as [|x a IH]; simpl; congruence. Qed.

Lemma concat_empty_cons (s : string) (l : list string) :
  String.concat EmptyString (s :: l) = s +++ String.concat EmptyString l.
Proof.
  destruct l as [|x l]; simpl; [|reflexivity].
  now rewrite append_nil_r.
Qed.

Lemma concat_empty_app (a b : list string) :
  String.concat EmptyString (a ++ b) =
  String.concat EmptyString a +++ String.concat EmptyString b.
Proof.
  induction a as [|s a IH]; [reflexivity|].
  rewrite <- app_comm_cons, !concat_empty_cons, IH.
  now rewrite append_assoc.
Qed.

Lemma empty_json_text (ts : string) :
  json_head ts (fmt_u 0) +++ json_tail = empty_json ts.
Proof.
  unfold json_head, json_tail, empty_json.
  rewrite !append_assoc. reflexivity.
Qed.

Lemma json_item_not_first (p : kv_pair) :
  json_item false p = "," +++ json_item true p.
Proof. reflexivity. Qed.

Lemma concat_comma_cons (s : string) (l : list string) :
  String.concat "," (s :: l) =
  s +++ match l with [] => EmptyString | _ => "," +++ String.concat "," l end.
Proof.
  destruct l as [|x l]; [|reflexivity].
  cbn [String.concat]. now rewrite append_nil_r.
Qed.

Lemma json_items_rest_commas (data : list kv_pair) :
  String.concat EmptyString (json_items false data) =
  match data with
  | [] => EmptyString
  | _ => "," +++ String.concat "," (map (json_item true) data)
  end.
Proof.
  induction data as [|p data IH]; [reflexivity|].
  cbn [json_items map]. rewrite concat_empty_cons, IH, concat_comma_cons.
  rewrite json_item_not_first, append_assoc.
  now destruct data.
Qed.

Lemma json_items_comma_join (data : list kv_pair) :
  String.concat EmptyString (json_items true data) =
  String.concat "," (map (json_item true) data).
Proof.
  destruct data as [|p data]; [reflexivity|].
  cbn [json_items map]. rewrite concat_empty_cons, concat_comma_cons.
  rewrite json_items_rest_commas. now destruct data.
Qed.

Lemma empty_json_document (ts : string) :
  json_document ts "0" [] = empty_json ts.
Proof.
  unfold json_document, json_open, empty_json.
  rewrite !append_assoc. reflexivity.
Qed.

Lemma json_head_open (ts n : string) : json_head ts n = json_open ts n.
Proof. reflexivity. Qed.

Section Shapes.

Variables (R : Z) (db js : string) (flags t : Z).
Variable data : list kv_pair.

Lemma tr_ok_store_calls : store_calls (tr_ok R db flags js t data) = data.
Proof.
  unfold tr_ok. cbn [store_calls].
  rewrite store_calls_app, store_calls_store_ev. cbn [store_calls].
  rewrite store_calls_app, store_calls_fprintf. cbn [store_calls app].
  apply app_nil_r.
Qed.

Lemma tr_ok_stores_ok : stores_ok (tr_ok R db flags js t data) = data.
Proof.
  unfold tr_ok. cbn [stores_ok].
  rewrite stores_ok_app, stores_ok_store_ev. cbn [stores_ok].
  rewrite stores_ok_app, stores_ok_fprintf. cbn [stores_ok app].
  apply app_nil_r.
Qed.

Lemma tr_ok_file_chunks :
  file_chunks (tr_ok R db flags js t data) =
  json_head (fmt_lu t) (fmt_zu (List.length data)) ::
  json_items true data ++ [json_tail].
Proof.
  unfold tr_ok. cbn [file_chunks].
  rewrite file_chunks_app, file_chunks_store_ev. cbn [file_chunks app].
  rewrite file_chunks_app, file_chunks_fprintf. reflexivity.
Qed.

Lemma tr_ok_json_file :
  json_file (tr_ok R db flags js t data) =
  Some (json_head (fmt_lu t) (fmt_zu (List.length data)) +++
        String.concat EmptyString (json_items true data) +++ json_tail).
Proof.
  unfold json_file. rewrite tr_ok_file_chunks.
  rewrite concat_empty_cons, concat_empty_app.
  unfold tr_ok. cbn [existsb is_fopen_ok orb].
  rewrite existsb_app. cbn [existsb is_fopen_ok orb].
  rewrite orb_true_r. reflexivity.
Qed.

Lemma tr_ok_json_document :
  json_file (tr_ok R db flags js t data) =
  Some (json_document (fmt_lu t) (fmt_zu (List.length data))
          (map (fun p => "[" +++ dq +++ key p +++ dq +++ "," +++
                         dq +++ value p +++ dq +++ "]") data)).
Proof.
  rewrite tr_ok_json_file, json_items_comma_join, json_head_open.
  reflexivity.
Qed.

Lemma tr_fopen_fail_store_calls :
  store_calls (tr_fopen_fail R db flags js data) = data.
Proof.
  unfold tr_fopen_fail. cbn [store_calls].
  rewrite store_calls_app, store_calls_store_ev. cbn [store_calls].
  apply app_nil_r.
Qed.

Lemma tr_fopen_fail_json_file :
  json_file (tr_fopen_fail R db flags js data) = None.
Proof.
  unfold json_file, tr_fopen_fail. cbn [existsb is_fopen_ok orb].
  rewrite existsb_app, existsb_store_ev by reflexivity. reflexivity.
Qed.

Lemma tr_store_fail_store_calls p rc :
  store_calls (tr_store_fail R db flags data p rc) = data ++ [p].
Proof.
  unfold tr_store_fail. cbn [store_calls].
  rewrite store_calls_app, store_calls_store_ev.
  unfold store_ev. cbn [store_calls]. now rewrite kv_eta.
Qed.

Lemma tr_store_fail_stores_ok p rc :
  rc <> 0 -> stores_ok (tr_store_fail R db flags data p rc) = data.
Proof.
  intros Hrc. unfold tr_store_fail. cbn [stores_ok].
  rewrite stores_ok_app, stores_ok_store_ev.
  unfold store_ev. cbn [stores_ok].
  apply Z.eqb_neq in Hrc. rewrite Hrc. apply app_nil_r.
Qed.

Lemma tr_store_fail_no_fopen p rc :
  existsb is_fopen (tr_store_fail R db flags data p rc) = false.
Proof.
  unfold tr_store_fail. cbn [existsb is_fopen orb].
  rewrite existsb_app, existsb_store_ev by reflexivity. reflexivity.
Qed.

Lemma tr_store_fail_json_file p rc :
  json_file (tr_store_fail R db flags data p rc) = None.
Proof.
  unfold json_file, tr_store_fail. cbn [existsb is_fopen_ok orb].
  rewrite existsb_app, existsb_store_ev by reflexivity. reflexivity.
Qed.

End Shapes.

(** ** Splitting the record list *)

Lemma fmt_zu_records : fmt_zu (Z.to_nat N_REC) = "10001".
Proof. vm_compute. reflexivity. Qed.

Lemma fill_data_split (m : nat) :
  (m < Z.to_nat N_REC)%nat ->
  fill_data =
  map record (zseq 0 m) ++ record (Z.of_nat m) ::
  map record (zseq (Z.of_nat m + 1) (Z.to_nat N_REC - m - 1)).
Proof.
  intros H. rewrite fill_data_records.
  replace (Z.to_nat N_REC) with (m + S (Z.to_nat N_REC - m - 1))%nat at 1 by lia.
  rewrite zseq_app, map_app. reflexivity.
Qed.

Lemma app_eq_same_length {A} (a c b d : list A) :
  List.length a = List.length c -> a ++ b = c ++ d -> a = c /\ b = d.
Proof.
  revert c; induction a as [|x a IH]; intros [|y c] Hlen H;
    simpl in *; try discriminate; [now split|].
  injection H as -> H. destruct (IH c) as [-> ->]; auto.
Qed.

(** Every prefix of the record list is an initial run of indices. *)
Lemma fill_data_prefix pre post :
  fill_data = pre ++ post ->
  pre = map record (zseq 0 (List.length pre)) /\
  (List.length pre <= Z.to_nat N_REC)%nat.
Proof.
  intros H.
  assert (Hlen : (List.length pre <= Z.to_nat N_REC)%nat).
  { rewrite <- fill_data_length, H, length_app. lia. }
  split; [|assumption].
  rewrite fill_data_records in H.
  replace (Z.to_nat N_REC)
    with (List.length pre + (Z.to_nat N_REC - List.length pre))%nat in H by lia.
  rewrite zseq_app, map_app in H.
  apply app_eq_same_length in H; [destruct H as [H _]; symmetry; exact H|].
  now rewrite length_map, zseq_length.
Qed.

(** * The claims *)

Section Claims.

Variables GDBM_NEWDB GDBM_NUMSYNC GDBM_REPLACE : Z.

(** C1.  The "basic" plan generates exactly 10001 records, record [i]
    being the pair ("key i", "value i") for [i] = 0, 1, ..., 10000 in this
    order.  Whatever the outside answers, the store-write calls of a run
    are an initial part of this sequence; in a run where the store opens,
    every write succeeds and the JSON file opens, the store-write calls
    are the whole sequence, and the JSON file holds, between the brackets
    of its data array, the elements ["key i","value i"] for [i] = 0, 1,
    ..., 10000 in this order, joined by commas and written one [fprintf]
    each. *)
Theorem C1_basic_records_in_order (w : World) (numsync : bool)
    (db_fn json_fn : string) :
  N_REC = 10001 /\
  List.length fill_data = Z.to_nat N_REC /\
  fill_data = map record (zseq 0 (Z.to_nat N_REC)) /\
  (exists m, (m <= Z.to_nat N_REC)%nat /\
     store_calls (trace (gen_plan_basic GDBM_NEWDB GDBM_NUMSYNC GDBM_REPLACE
                           w numsync db_fn json_fn)) =
     map record (zseq 0 m)) /\
  (gdbm_open_ok w db_fn 512 (open_flags GDBM_NEWDB GDBM_NUMSYNC numsync)
     mode_0666 = true ->
   stores_succeed GDBM_REPLACE w 0 fill_data ->
   fopen_ok w json_fn = true ->
   result (gen_plan_basic GDBM_NEWDB GDBM_NUMSYNC GDBM_REPLACE
             w numsync db_fn json_fn) = Exit 0 /\
   store_calls (trace (gen_plan_basic GDBM_NEWDB GDBM_NUMSYNC GDBM_REPLACE
                         w numsync db_fn json_fn)) =
     map record (zseq 0 (Z.to_nat N_REC)) /\
   json_file (trace (gen_plan_basic GDBM_NEWDB GDBM_NUMSYNC GDBM_REPLACE
                       w numsync db_fn json_fn)) =
     Some (json_document (fmt_lu (time_now w)) "10001"
             (map (fun i => "[" +++ dq +++ "key " +++ decimal i +++ dq +++ "," +++
                            dq +++ "value " +++ decimal i +++ dq +++ "]")
                  (zseq 0 (Z.to_nat N_REC)))) /\
   file_chunks (trace (gen_plan_basic GDBM_NEWDB GDBM_NUMSYNC GDBM_REPLACE
                         w numsync db_fn json_fn)) =
     json_open (fmt_lu (time_now w)) "10001" ::
     map (fun i => (if i =? 0 then EmptyString else ",") +++
                   "[" +++ dq +++ "key " +++ decimal i +++ dq +++ "," +++
                   dq +++ "value " +++ decimal i +++ dq +++ "]")
         (zseq 0 (Z.to_nat N_REC)) ++
     ["]}" +++ nl]).
Proof.
  split; [reflexivity|]. split; [apply fill_data_length|].
  split; [apply fill_data_records|]. split.
  - destruct (gen_plan_basic_cases GDBM_NEWDB GDBM_NUMSYNC GDBM_REPLACE
                w numsync db_fn json_fn)
      as [[_ ->]|[(_ & pre & p & post & Hsplit & _ & _ & ->)
         |[(_ & _ & _ & ->)|(_ & _ & _ & ->)]]]; unfold trace, fst.
    + exists O. split; [lia | reflexivity].
    + rewrite tr_store_fail_store_calls.
      assert (Hp : fill_data = (pre ++ [p]) ++ post)
        by now rewrite <- app_assoc.
      apply fill_data_prefix in Hp as [Hp Hlen].
      exists (List.length (pre ++ [p])). split; assumption.
    + rewrite tr_fopen_fail_store_calls.
      exists (Z.to_nat N_REC). split; [lia | apply fill_data_records].
    + rewrite tr_ok_store_calls.
      exists (Z.to_nat N_REC). split; [lia | apply fill_data_records].
  - intros Hopen Hall Hf.
    rewrite gen_plan_basic_ok_run by assumption. unfold trace, result, fst, snd.
    rewrite tr_ok_store_calls, tr_ok_file_chunks, tr_ok_json_document.
    rewrite fill_data_length, fmt_zu_records.
    split; [reflexivity|]. split; [apply fill_data_records|].
    rewrite fill_data_records, json_items_indexed, !map_map.
    split; reflexivity.
Qed.

(** C10.  For every index [i] in [0, 10001) the texts "key i" and
    "value i" are shorter than the 128-byte buffer, so [snprintf] cuts
    nothing and the record made for [i] holds the full decimal texts; the
    10001 keys are pairwise distinct. *)
Theorem C10_no_truncation_distinct_keys :
  (forall i, 0 <= i < N_REC ->
     (String.length ("key " +++ fmt_u i) < sizeof_s)%nat /\
     (String.length ("value " +++ fmt_u i) < sizeof_s)%nat /\
     sizeof_s = 128%nat /\
     key (fill_pair i) = "key " +++ decimal i /\
     value (fill_pair i) = "value " +++ decimal i) /\
  NoDup (map key fill_data).
Proof.
  split; [|apply fill_data_keys_NoDup].
  intros i Hi. pose proof (fits_range i Hi) as Hf.
  unfold fits in Hf. apply andb_prop in Hf as [Hk Hv].
  apply Nat.ltb_lt in Hk, Hv.
  rewrite (fill_pair_record i Hi).
  repeat split; assumption.
Qed.

(** ** When a JSON file is written *)

Lemma fmt_zu_small (n : nat) :
  Z.of_nat n < 2 ^ 64 -> fmt_zu n = decimal (Z.of_nat n).
Proof. intros H. unfold fmt_zu, uint64. rewrite Z.mod_small; [reflexivity | lia]. Qed.

Lemma json_items_length first data :
  List.length (json_items first data) = List.length data.
Proof.
  revert first; induction data as [|p data IH]; intros first; simpl; auto.
Qed.

Lemma basic_json_emitted w numsync db_fn json_fn :
  json_file (trace (gen_plan_basic GDBM_NEWDB GDBM_NUMSYNC GDBM_REPLACE
                      w numsync db_fn json_fn)) <> None ->
  gen_plan_basic GDBM_NEWDB GDBM_NUMSYNC GDBM_REPLACE w numsync db_fn json_fn =
  (tr_ok GDBM_REPLACE db_fn (open_flags GDBM_NEWDB GDBM_NUMSYNC numsync)
     json_fn (time_now w) fill_data, Exit 0).
Proof.
  destruct (gen_plan_basic_cases GDBM_NEWDB GDBM_NUMSYNC GDBM_REPLACE
              w numsync db_fn json_fn)
    as [[_ ->]|[(_ & pre & p & post & _ & _ & _ & ->)
       |[(_ & _ & _ & ->)|(_ & _ & _ & ->)]]]; unfold trace, fst; intros H.
  - now contradiction H.
  - now rewrite tr_store_fail_json_file in H.
  - now rewrite tr_fopen_fail_json_file in H.
  - reflexivity.
Qed.

Lemma empty_json_emitted w numsync db_fn json_fn :
  json_file (trace (gen_plan_empty GDBM_NEWDB GDBM_NUMSYNC
                      w numsync db_fn json_fn)) <> None ->
  gen_plan_empty GDBM_NEWDB GDBM_NUMSYNC w numsync db_fn json_fn =
  ([EvGdbmOpen db_fn 512 (open_flags GDBM_NEWDB GDBM_NUMSYNC numsync)
      mode_0666 true;
    EvGdbmCount 0 0; EvGdbmClose; EvFopen json_fn true;
    EvFprintf (json_head (fmt_lu (time_now w)) (fmt_u 0));
    EvFprintf json_tail; EvFclose], Exit 0).
Proof.
  unfold gen_plan_empty. cbv zeta.
  destruct (gdbm_open_ok w db_fn 512 _ mode_0666);
    [|intros H; now contradiction H].
  destruct (Z.eqb_spec (gdbm_count_rc w) 0) as [->|_];
    [|intros H; now contradiction H].
  destruct (Z.eqb_spec (gdbm_count_val w) 0) as [->|_];
    [|intros H; now contradiction H].
  destruct (fopen_ok w json_fn); [|intros H; now contradiction H].
  reflexivity.
Qed.

Lemma dispatch_basic w numsync db_fn json_fn :
  dispatch GDBM_NEWDB GDBM_NUMSYNC GDBM_REPLACE w "basic" numsync db_fn json_fn =
  gen_plan_basic GDBM_NEWDB GDBM_NUMSYNC GDBM_REPLACE w numsync db_fn json_fn.
Proof. reflexivity. Qed.

Lemma dispatch_empty w numsync db_fn json_fn :
  dispatch GDBM_NEWDB GDBM_NUMSYNC GDBM_REPLACE w "empty" numsync db_fn json_fn =
  gen_plan_empty GDBM_NEWDB GDBM_NUMSYNC w numsync db_fn json_fn.
Proof. reflexivity. Qed.

Lemma dispatch_unknown w plan numsync db_fn json_fn :
  plan <> "basic" -> plan <> "empty" ->
  dispatch GDBM_NEWDB GDBM_NUMSYNC GDBM_REPLACE w plan numsync db_fn json_fn =
  ([EvStderr ("Unknown test plan " +++ plan +++ nl)], Exit 1).
Proof.
  intros Hb He. unfold dispatch.
  apply String.eqb_neq in Hb, He. now rewrite Hb, He.
Qed.

(** The plan name decides between three ways. *)
Lemma dispatch_cases w plan numsync db_fn json_fn :
  (plan = "basic" /\
   dispatch GDBM_NEWDB GDBM_NUMSYNC GDBM_REPLACE w plan numsync db_fn json_fn =
   gen_plan_basic GDBM_NEWDB GDBM_NUMSYNC GDBM_REPLACE w numsync db_fn json_fn)
  \/
  (plan = "empty" /\
   dispatch GDBM_NEWDB GDBM_NUMSYNC GDBM_REPLACE w plan numsync db_fn json_fn =
   gen_plan_empty GDBM_NEWDB GDBM_NUMSYNC w numsync db_fn json_fn)
  \/
  (plan <> "basic" /\ plan <> "empty" /\
   dispatch GDBM_NEWDB GDBM_NUMSYNC GDBM_REPLACE w plan numsync db_fn json_fn =
   ([EvStderr ("Unknown test plan " +++ plan +++ nl)], Exit 1)).
Proof.
  destruct (String.eqb_spec plan "basic") as [->|Hb]; [left; now split|].
  destruct (String.eqb_spec plan "empty") as [->|He];
    [right; left; now split|].
  right; right. split; [assumption|]. split; [assumption|].
  now apply dispatch_unknown.
Qed.

(** [main] either leaves through [usage] or dispatches on the plan. *)
Lemma main_cases w progname opts :
  main GDBM_NEWDB GDBM_NUMSYNC GDBM_REPLACE w progname opts =
    usage progname (return_ 1)
  \/
  exists l fn json,
    getopt_loop opts main_init = Some l /\
    out_fn l = Some fn /\ out_json l = Some json /\
    main GDBM_NEWDB GDBM_NUMSYNC GDBM_REPLACE w progname opts =
    dispatch GDBM_NEWDB GDBM_NUMSYNC GDBM_REPLACE w
      (plan l) (numsync l) fn json.
Proof.
  unfold main. destruct (getopt_loop opts main_init) as [l|]; [|now left].
  destruct (out_fn l) as [fn|] eqn:Hfn; [|now left].
  destruct (out_json l) as [json|] eqn:Hjs; [|now left].
  right. exists l, fn, json. repeat split; assumption.
Qed.

Lemma dispatch_json_document w plan numsync db_fn json_fn c :
  json_file (trace (dispatch GDBM_NEWDB GDBM_NUMSYNC GDBM_REPLACE
                      w plan numsync db_fn json_fn)) = Some c ->
  c = json_document (fmt_lu (time_now w))
        (decimal (Z.of_nat (List.length
           (stores_ok (trace (dispatch GDBM_NEWDB GDBM_NUMSYNC GDBM_REPLACE
                                w plan numsync db_fn json_fn))))))
        (map (fun p => "[" +++ dq +++ key p +++ dq +++ "," +++
                       dq +++ value p +++ dq +++ "]")
           (stores_ok (trace (dispatch GDBM_NEWDB GDBM_NUMSYNC GDBM_REPLACE
                                w plan numsync db_fn json_fn)))) /\
  (plan = "basic" ->
   stores_ok (trace (dispatch GDBM_NEWDB GDBM_NUMSYNC GDBM_REPLACE
                       w plan numsync db_fn json_fn)) =
   map record (zseq 0 (Z.to_nat N_REC))) /\
  (plan = "empty" ->
   stores_ok (trace (dispatch GDBM_NEWDB GDBM_NUMSYNC GDBM_REPLACE
                       w plan numsync db_fn json_fn)) = [] /\
   c = empty_json (fmt_lu (time_now w))).
Proof.
  intros H.
  destruct (dispatch_cases w plan numsync db_fn json_fn)
    as [[-> Hd]|[[-> Hd]|(_ & _ & Hd)]]; rewrite Hd in *; clear Hd.
  - assert (Hne : json_file (trace (gen_plan_basic GDBM_NEWDB GDBM_NUMSYNC
              GDBM_REPLACE w numsync db_fn json_fn)) <> None) by congruence.
    apply basic_json_emitted in Hne. rewrite Hne in *. unfold trace, fst in *.
    rewrite tr_ok_json_document in H. injection H as <-.
    rewrite tr_ok_stores_ok.
    rewrite fmt_zu_small
      by (rewrite fill_data_length; unfold N_REC; lia).
    split; [reflexivity|].
    split; [intros _; apply fill_data_records | discriminate].
  - assert (Hne : json_file (trace (gen_plan_empty GDBM_NEWDB GDBM_NUMSYNC
              w numsync db_fn json_fn)) <> None) by congruence.
    apply empty_json_emitted in Hne. rewrite Hne in *.
    unfold json_file in H.
    cbn [trace fst existsb is_fopen_ok orb file_chunks] in H.
    rewrite !concat_empty_cons in H. cbn [String.concat] in H.
    rewrite append_nil_r, empty_json_text in H. injection H as <-.
    cbn [trace fst stores_ok List.length map Z.of_nat].
    change (decimal 0) with "0". rewrite empty_json_document.
    split; [reflexivity|].
    split; [discriminate | intros _; split; reflexivity].
  - discriminate H.
Qed.

Lemma basic_ok_json_document w numsync db_fn json_fn :
  gdbm_open_ok w db_fn 512 (open_flags GDBM_NEWDB GDBM_NUMSYNC numsync)
    mode_0666 = true ->
  stores_succeed GDBM_REPLACE w 0 fill_data ->
  fopen_ok w json_fn = true ->
  json_file (trace (gen_plan_basic GDBM_NEWDB GDBM_NUMSYNC GDBM_REPLACE
                      w numsync db_fn json_fn)) =
  Some (json_document (fmt_lu (time_now w)) "10001"
          (map (fun i => "[" +++ dq +++ "key " +++ decimal i +++ dq +++ "," +++
                         dq +++ "value " +++ decimal i +++ dq +++ "]")
               (zseq 0 (Z.to_nat N_REC)))).
Proof.
  intros Hopen Hall Hf.
  rewrite gen_plan_basic_ok_run by assumption. unfold trace, fst.
  rewrite tr_ok_json_document.
  rewrite fill_data_length, fmt_zu_records, fill_data_records, map_map.
  reflexivity.
Qed.

(** C2.  Whenever a run of the tool leaves a JSON document, the document
    is: the head, in which data_records is the decimal number of elements
    of the data array; the array, whose elements are the pairs
    ["key","value"] of the store-write calls that succeeded in the run,
    one element for each call and in the order of the calls; the closing
    bracket and brace.  So data_records, the length of the array and the
    number of successful store writes are one number: 10001 under the
    "basic" plan, with the 10001 records of the plan in the array, and 0
    under the "empty" plan, with an empty array. *)
Theorem C2_data_records_count (w : World) (progname : string)
    (opts : list getopt_result) (c : string) :
  json_file (trace (main GDBM_NEWDB GDBM_NUMSYNC GDBM_REPLACE
                      w progname opts)) = Some c ->
  exists elements : list string,
    c = json_document (fmt_lu (time_now w))
          (decimal (Z.of_nat (List.length elements))) elements /\
    elements =
      map (fun p => "[" +++ dq +++ key p +++ dq +++ "," +++
                    dq +++ value p +++ dq +++ "]")
        (stores_ok (trace (main GDBM_NEWDB GDBM_NUMSYNC GDBM_REPLACE
                             w progname opts))) /\
    List.length
      (stores_ok (trace (main GDBM_NEWDB GDBM_NUMSYNC GDBM_REPLACE
                           w progname opts))) = List.length elements /\
    (forall l, getopt_loop opts main_init = Some l ->
       (plan l = "basic" ->
        stores_ok (trace (main GDBM_NEWDB GDBM_NUMSYNC GDBM_REPLACE
                            w progname opts)) =
          map record (zseq 0 (Z.to_nat N_REC)) /\
        decimal (Z.of_nat (List.length elements)) = "10001") /\
       (plan l = "empty" ->
        elements = [] /\
        decimal (Z.of_nat (List.length elements)) = "0" /\
        c = empty_json (fmt_lu (time_now w)))).
Proof.
  destruct (main_cases w progname opts)
    as [->|(l & fn & json & Hl & _ & _ & ->)]; intros H.
  - discriminate H.
  - destruct (dispatch_json_document w (plan l) (numsync l) fn json c H)
      as (Hc & Hb & He).
    eexists. split; [|split; [reflexivity|]].
    + rewrite length_map. exact Hc.
    + split; [now rewrite length_map|].
      intros l' Hl'. rewrite Hl in Hl'. injection Hl' as <-.
      split.
      * intros Hp. split; [exact (Hb Hp)|].
        rewrite length_map, (Hb Hp), length_map, zseq_length.
        reflexivity.
      * intros Hp. destruct (He Hp) as [Hs Hce].
        rewrite Hs. repeat split. exact Hce.
Qed.

Lemma basic_exit_0 w numsync db_fn json_fn :
  result (gen_plan_basic GDBM_NEWDB GDBM_NUMSYNC GDBM_REPLACE
            w numsync db_fn json_fn) = Exit 0 ->
  gen_plan_basic GDBM_NEWDB GDBM_NUMSYNC GDBM_REPLACE w numsync db_fn json_fn =
  (tr_ok GDBM_REPLACE db_fn (open_flags GDBM_NEWDB GDBM_NUMSYNC numsync)
     json_fn (time_now w) fill_data, Exit 0).
Proof.
  destruct (gen_plan_basic_cases GDBM_NEWDB GDBM_NUMSYNC GDBM_REPLACE
              w numsync db_fn json_fn)
    as [[_ ->]|[(_ & pre & p & post & _ & _ & _ & ->)
       |[(_ & _ & _ & ->)|(_ & _ & _ & ->)]]]; unfold result, snd; intros H;
    try discriminate H.
  reflexivity.
Qed.

Lemma basic_ok_exit_0 w numsync db_fn json_fn :
  gdbm_open_ok w db_fn 512 (open_flags GDBM_NEWDB GDBM_NUMSYNC numsync)
    mode_0666 = true ->
  stores_succeed GDBM_REPLACE w 0 fill_data ->
  fopen_ok w json_fn = true ->
  result (gen_plan_basic GDBM_NEWDB GDBM_NUMSYNC GDBM_REPLACE
            w numsync db_fn json_fn) = Exit 0.
Proof.
  intros Hopen Hall Hf. now rewrite gen_plan_basic_ok_run.
Qed.

(** C3.  Two successful runs of the "basic" plan with the same parameters
    wrote the same records to the store and produced the same data array,
    whatever else differs in their worlds: the JSON documents differ at
    most in generated_time, and the whole runs are equal when the clock
    reads the same. *)
Theorem C3_basic_deterministic (w1 w2 : World) (numsync : bool)
    (db_fn json_fn : string) :
  result (gen_plan_basic GDBM_NEWDB GDBM_NUMSYNC GDBM_REPLACE
            w1 numsync db_fn json_fn) = Exit 0 ->
  result (gen_plan_basic GDBM_NEWDB GDBM_NUMSYNC GDBM_REPLACE
            w2 numsync db_fn json_fn) = Exit 0 ->
  store_calls (trace (gen_plan_basic GDBM_NEWDB GDBM_NUMSYNC GDBM_REPLACE
                        w1 numsync db_fn json_fn)) =
  store_calls (trace (gen_plan_basic GDBM_NEWDB GDBM_NUMSYNC GDBM_REPLACE
                        w2 numsync db_fn json_fn)) /\
  (exists data_array : string,
     json_file (trace (gen_plan_basic GDBM_NEWDB GDBM_NUMSYNC GDBM_REPLACE
                         w1 numsync db_fn json_fn)) =
     Some (json_head (fmt_lu (time_now w1)) "10001" +++ data_array +++ json_tail) /\
     json_file (trace (gen_plan_basic GDBM_NEWDB GDBM_NUMSYNC GDBM_REPLACE
                         w2 numsync db_fn json_fn)) =
     Some (json_head (fmt_lu (time_now w2)) "10001" +++ data_array +++ json_tail)) /\
  (time_now w1 = time_now w2 ->
   gen_plan_basic GDBM_NEWDB GDBM_NUMSYNC GDBM_REPLACE w1 numsync db_fn json_fn =
   gen_plan_basic GDBM_NEWDB GDBM_NUMSYNC GDBM_REPLACE w2 numsync db_fn json_fn).
Proof.
  intros H1 H2.
  apply basic_exit_0 in H1, H2. rewrite H1, H2. unfold trace, fst.
  rewrite !tr_ok_store_calls, !tr_ok_json_file.
  rewrite fill_data_length, fmt_zu_records.
  split; [reflexivity|]. split.
  - exists (String.concat EmptyString (json_items true fill_data)).
    split; reflexivity.
  - intros Ht. rewrite Ht. reflexivity.
Qed.

(** ** What the flag can reach *)

(** Past [gdbm_open], neither plan function looks at [numsync] again. *)
Lemma basic_after_open w db_fn json_fn :
  exists rest : run, forall numsync,
    gen_plan_basic GDBM_NEWDB GDBM_NUMSYNC GDBM_REPLACE w numsync db_fn json_fn =
    EvGdbmOpen db_fn 512 (open_flags GDBM_NEWDB GDBM_NUMSYNC numsync) mode_0666
      (gdbm_open_ok w db_fn 512
         (open_flags GDBM_NEWDB GDBM_NUMSYNC numsync) mode_0666) ;;
    if gdbm_open_ok w db_fn 512
         (open_flags GDBM_NEWDB GDBM_NUMSYNC numsync) mode_0666
    then rest
    else EvStderr ("gdbm_open failed" +++ nl) ;; return_ 1.
Proof.
  eexists. intros numsync. unfold gen_plan_basic. cbv zeta.
  destruct (gdbm_open_ok w db_fn 512 _ mode_0666); reflexivity.
Qed.

Lemma empty_after_open w db_fn json_fn :
  exists rest : run, forall numsync,
    gen_plan_empty GDBM_NEWDB GDBM_NUMSYNC w numsync db_fn json_fn =
    EvGdbmOpen db_fn 512 (open_flags GDBM_NEWDB GDBM_NUMSYNC numsync) mode_0666
      (gdbm_open_ok w db_fn 512
         (open_flags GDBM_NEWDB GDBM_NUMSYNC numsync) mode_0666) ;;
    if gdbm_open_ok w db_fn 512
         (open_flags GDBM_NEWDB GDBM_NUMSYNC numsync) mode_0666
    then rest
    else EvStderr ("gdbm_open failed" +++ nl) ;; return_ 1.
Proof.
  eexists. intros numsync. unfold gen_plan_empty. cbv zeta.
  destruct (gdbm_open_ok w db_fn 512 _ mode_0666); reflexivity.
Qed.

Lemma dispatch_after_open w plan db_fn json_fn :
  (exists rest : run, forall numsync,
    dispatch GDBM_NEWDB GDBM_NUMSYNC GDBM_REPLACE w plan numsync db_fn json_fn =
    EvGdbmOpen db_fn 512 (open_flags GDBM_NEWDB GDBM_NUMSYNC numsync) mode_0666
      (gdbm_open_ok w db_fn 512
         (open_flags GDBM_NEWDB GDBM_NUMSYNC numsync) mode_0666) ;;
    if gdbm_open_ok w db_fn 512
         (open_flags GDBM_NEWDB GDBM_NUMSYNC numsync) mode_0666
    then rest
    else EvStderr ("gdbm_open failed" +++ nl) ;; return_ 1)
  \/
  (forall numsync,
    dispatch GDBM_NEWDB GDBM_NUMSYNC GDBM_REPLACE w plan numsync db_fn json_fn =
    ([EvStderr ("Unknown test plan " +++ plan +++ nl)], Exit 1)).
Proof.
  destruct (String.eqb_spec plan "basic") as [->|Hb].
  - left. destruct (basic_after_open w db_fn json_fn) as [rest H].
    exists rest. intros ns. now rewrite dispatch_basic.
  - destruct (String.eqb_spec plan "empty") as [->|He].
    + left. destruct (empty_after_open w db_fn json_fn) as [rest H].
      exists rest. intros ns. now rewrite dispatch_empty.
    + right. intros ns. now apply dispatch_unknown.
Qed.

Lemma json_file_after_open path bs fl mode ok (k : run) :
  json_file (trace (EvGdbmOpen path bs fl mode ok ;; k)) = json_file (trace k).
Proof. reflexivity. Qed.

Lemma stores_ok_after_open path bs fl mode ok (k : run) :
  stores_ok (trace (EvGdbmOpen path bs fl mode ok ;; k)) = stores_ok (trace k).
Proof. reflexivity. Qed.

(** C4.  Two runs of the same plan in the same world that differ only in
    the numeric-sync flag: if both leave a JSON document, the documents
    are equal and so are the records written; and when [gdbm_open] answers
    alike for both flag values, the runs end alike, leave the same JSON
    file, and their traces differ in nothing but the flags handed to
    [gdbm_open], which are [GDBM_NEWDB] with or without [GDBM_NUMSYNC]. *)
Theorem C4_numsync_independence (w : World) (plan db_fn json_fn : string) :
  open_flags GDBM_NEWDB GDBM_NUMSYNC false = GDBM_NEWDB /\
  open_flags GDBM_NEWDB GDBM_NUMSYNC true = Z.lor GDBM_NEWDB GDBM_NUMSYNC /\
  (forall c1 c2,
     json_file (trace (dispatch GDBM_NEWDB GDBM_NUMSYNC GDBM_REPLACE
                         w plan true db_fn json_fn)) = Some c1 ->
     json_file (trace (dispatch GDBM_NEWDB GDBM_NUMSYNC GDBM_REPLACE
                         w plan false db_fn json_fn)) = Some c2 ->
     c1 = c2 /\
     stores_ok (trace (dispatch GDBM_NEWDB GDBM_NUMSYNC GDBM_REPLACE
                         w plan true db_fn json_fn)) =
     stores_ok (trace (dispatch GDBM_NEWDB GDBM_NUMSYNC GDBM_REPLACE
                         w plan false db_fn json_fn))) /\
  (gdbm_open_ok w db_fn 512 (open_flags GDBM_NEWDB GDBM_NUMSYNC true) mode_0666 =
   gdbm_open_ok w db_fn 512 (open_flags GDBM_NEWDB GDBM_NUMSYNC false) mode_0666 ->
   map erase_flags (trace (dispatch GDBM_NEWDB GDBM_NUMSYNC GDBM_REPLACE
                             w plan true db_fn json_fn)) =
   map erase_flags (trace (dispatch GDBM_NEWDB GDBM_NUMSYNC GDBM_REPLACE
                             w plan false db_fn json_fn)) /\
   result (dispatch GDBM_NEWDB GDBM_NUMSYNC GDBM_REPLACE
             w plan true db_fn json_fn) =
   result (dispatch GDBM_NEWDB GDBM_NUMSYNC GDBM_REPLACE
             w plan false db_fn json_fn) /\
   json_file (trace (dispatch GDBM_NEWDB GDBM_NUMSYNC GDBM_REPLACE
                       w plan true db_fn json_fn)) =
   json_file (trace (dispatch GDBM_NEWDB GDBM_NUMSYNC GDBM_REPLACE
                       w plan false db_fn json_fn))).
Proof.
  split; [apply Z.lor_0_r|]. split; [reflexivity|].
  destruct (dispatch_after_open w plan db_fn json_fn) as [[rest H]|H];
    rewrite !H; clear H.
  - split.
    + intros c1 c2. rewrite !json_file_after_open, !stores_ok_after_open.
      destruct (gdbm_open_ok w db_fn 512 (open_flags _ _ true) mode_0666);
        [|discriminate].
      destruct (gdbm_open_ok w db_fn 512 (open_flags _ _ false) mode_0666);
        [|discriminate].
      intros H1 H2. split; [congruence | reflexivity].
    + intros <-. rewrite !json_file_after_open.
      destruct (gdbm_open_ok w db_fn 512 (open_flags _ _ true) mode_0666);
        destruct rest as [tr o]; repeat split.
  - split; [discriminate | repeat split].
Qed.

(** ** A failed write *)

Lemma stores_succeed_records w (m : nat) :
  (forall j, 0 <= j < Z.of_nat m ->
     gdbm_store_rc w (Z.to_nat j) (key (record j)) (value (record j))
       GDBM_REPLACE = 0) ->
  stores_succeed GDBM_REPLACE w 0 (map record (zseq 0 m)).
Proof.
  intros H j p Hj.
  assert (Hlt : (j < m)%nat).
  { rewrite <- (zseq_length 0 m), <- (length_map record).
    apply nth_error_Some. congruence. }
  rewrite nth_error_map, zseq_nth in Hj by assumption.
  injection Hj as <-. cbn [Nat.add Z.add].
  specialize (H (Z.of_nat j) ltac:(lia)).
  now rewrite Nat2Z.id in H.
Qed.

(** The run in which the write of record [i] is the first to fail. *)
Lemma gen_plan_basic_fails_at w numsync db_fn json_fn (i rc : Z) :
  0 <= i < N_REC ->
  gdbm_open_ok w db_fn 512 (open_flags GDBM_NEWDB GDBM_NUMSYNC numsync)
    mode_0666 = true ->
  (forall j, 0 <= j < i ->
     gdbm_store_rc w (Z.to_nat j) (key (record j)) (value (record j))
       GDBM_REPLACE = 0) ->
  gdbm_store_rc w (Z.to_nat i) (key (record i)) (value (record i))
    GDBM_REPLACE = rc ->
  rc <> 0 ->
  gen_plan_basic GDBM_NEWDB GDBM_NUMSYNC GDBM_REPLACE w numsync db_fn json_fn =
  (tr_store_fail GDBM_REPLACE db_fn
     (open_flags GDBM_NEWDB GDBM_NUMSYNC numsync)
     (map record (zseq 0 (Z.to_nat i))) (record i) rc, Exit 1).
Proof.
  intros Hi Hopen Hbefore Hrc Hne.
  assert (Hm : (Z.to_nat i < Z.to_nat N_REC)%nat) by lia.
  pose proof (fill_data_split (Z.to_nat i) Hm) as Hsplit.
  rewrite Z2Nat.id in Hsplit by lia.
  assert (Hpre : stores_succeed GDBM_REPLACE w 0
                   (map record (zseq 0 (Z.to_nat i)))).
  { apply stores_succeed_records. intros j Hj. apply Hbefore. lia. }
  assert (Hlen : List.length (map record (zseq 0 (Z.to_nat i))) = Z.to_nat i)
    by now rewrite length_map, zseq_length.
  rewrite (gen_plan_basic_store_fail GDBM_NEWDB GDBM_NUMSYNC GDBM_REPLACE
             w numsync db_fn json_fn _ _ _ Hopen Hsplit Hpre)
    by (rewrite Hlen, Hrc; exact Hne).
  now rewrite Hlen, Hrc.
Qed.

(** C5.  When the store opened and the write of record [i] is the first
    one to fail, the run is: the open, the writes of records 0 to [i],
    and one diagnostic that names the return code and the key of record
    [i].  Nothing follows: no further write, no attempt to open the JSON
    file, and the process exits with status 1. *)
Theorem C5_store_write_failure (w : World) (numsync : bool)
    (db_fn json_fn : string) (i rc : Z) :
  0 <= i < N_REC ->
  gdbm_open_ok w db_fn 512 (open_flags GDBM_NEWDB GDBM_NUMSYNC numsync)
    mode_0666 = true ->
  (forall j, 0 <= j < i ->
     gdbm_store_rc w (Z.to_nat j) (key (record j)) (value (record j))
       GDBM_REPLACE = 0) ->
  gdbm_store_rc w (Z.to_nat i) (key (record i)) (value (record i))
    GDBM_REPLACE = rc ->
  rc <> 0 ->
  gen_plan_basic GDBM_NEWDB GDBM_NUMSYNC GDBM_REPLACE w numsync db_fn json_fn =
  (EvGdbmOpen db_fn 512 (open_flags GDBM_NEWDB GDBM_NUMSYNC numsync)
     mode_0666 true ::
   map (fun j => EvGdbmStore ("key " +++ decimal j) ("value " +++ decimal j)
                   GDBM_REPLACE 0) (zseq 0 (Z.to_nat i)) ++
   [EvGdbmStore ("key " +++ decimal i) ("value " +++ decimal i) GDBM_REPLACE rc;
    EvStderr ("gdbm_store failed, rc " +++ fmt_d rc +++
              ", key " +++ "key " +++ decimal i +++ nl)],
   Exit 1) /\
  existsb is_fopen
    (trace (gen_plan_basic GDBM_NEWDB GDBM_NUMSYNC GDBM_REPLACE
              w numsync db_fn json_fn)) = false /\
  json_file
    (trace (gen_plan_basic GDBM_NEWDB GDBM_NUMSYNC GDBM_REPLACE
              w numsync db_fn json_fn)) = None.
Proof.
  intros Hi Hopen Hbefore Hrc Hne.
  rewrite (gen_plan_basic_fails_at w numsync db_fn json_fn i rc)
    by assumption.
  unfold trace, fst.
  rewrite tr_store_fail_no_fopen, tr_store_fail_json_file.
  unfold tr_store_fail. rewrite map_map.
  repeat split.
Qed.

(** ** An unknown plan *)

(** C6.  When the options name a plan other than "basic" and "empty",
    [main] exits with status 1 without opening a store or a JSON file; if
    both file names were given, all it does is print the unknown-plan
    diagnostic with the offending name. *)
Theorem C6_unknown_plan (w : World) (progname : string)
    (opts : list getopt_result) (l : locals) :
  getopt_loop opts main_init = Some l ->
  plan l <> "basic" ->
  plan l <> "empty" ->
  result (main GDBM_NEWDB GDBM_NUMSYNC GDBM_REPLACE w progname opts) = Exit 1 /\
  existsb is_gdbm_open
    (trace (main GDBM_NEWDB GDBM_NUMSYNC GDBM_REPLACE w progname opts)) = false /\
  existsb is_fopen
    (trace (main GDBM_NEWDB GDBM_NUMSYNC GDBM_REPLACE w progname opts)) = false /\
  json_file
    (trace (main GDBM_NEWDB GDBM_NUMSYNC GDBM_REPLACE w progname opts)) = None /\
  (forall fn json, out_fn l = Some fn -> out_json l = Some json ->
     main GDBM_NEWDB GDBM_NUMSYNC GDBM_REPLACE w progname opts =
     ([EvStderr ("Unknown test plan " +++ plan l +++ nl)], Exit 1)).
Proof.
  intros Hl Hb He. unfold main. rewrite Hl.
  destruct (out_fn l) as [fn|]; [destruct (out_json l) as [json|]|].
  - rewrite dispatch_unknown by assumption.
    repeat split.
  - repeat split; discriminate.
  - repeat split; discriminate.
Qed.

(** ** The "empty" plan *)

(** C7, as the code has it.  Under the "empty" plan, when the store
    opened and [gdbm_count] succeeded with a count other than zero, the
    run ends in the failed [assert(count == 0)]: the process is aborted,
    it does not exit with a status; the store is not closed and no JSON
    file is opened. *)
Theorem C7_nonzero_count_aborts (w : World) (numsync : bool)
    (db_fn json_fn : string) :
  gdbm_open_ok w db_fn 512 (open_flags GDBM_NEWDB GDBM_NUMSYNC numsync)
    mode_0666 = true ->
  gdbm_count_rc w = 0 ->
  gdbm_count_val w <> 0 ->
  gen_plan_empty GDBM_NEWDB GDBM_NUMSYNC w numsync db_fn json_fn =
  ([EvGdbmOpen db_fn 512 (open_flags GDBM_NEWDB GDBM_NUMSYNC numsync)
      mode_0666 true;
    EvGdbmCount 0 (gdbm_count_val w);
    EvAssertFail], Aborted) /\
  json_file (trace (gen_plan_empty GDBM_NEWDB GDBM_NUMSYNC
                      w numsync db_fn json_fn)) = None.
Proof.
  intros Hopen Hrc Hcount. unfold gen_plan_empty. cbv zeta.
  rewrite Hopen, Hrc. apply Z.eqb_neq in Hcount. rewrite Hcount.
  split; reflexivity.
Qed.

Lemma empty_exit_0 w numsync db_fn json_fn :
  result (gen_plan_empty GDBM_NEWDB GDBM_NUMSYNC w numsync db_fn json_fn)
    = Exit 0 ->
  gen_plan_empty GDBM_NEWDB GDBM_NUMSYNC w numsync db_fn json_fn =
  ([EvGdbmOpen db_fn 512 (open_flags GDBM_NEWDB GDBM_NUMSYNC numsync)
      mode_0666 true;
    EvGdbmCount 0 0; EvGdbmClose; EvFopen json_fn true;
    EvFprintf (json_head (fmt_lu (time_now w)) (fmt_u 0));
    EvFprintf json_tail; EvFclose], Exit 0).
Proof.
  unfold gen_plan_empty. cbv zeta.
  destruct (gdbm_open_ok w db_fn 512 _ mode_0666); [|discriminate].
  destruct (Z.eqb_spec (gdbm_count_rc w) 0) as [->|_]; [|discriminate].
  destruct (Z.eqb_spec (gdbm_count_val w) 0) as [->|_]; [|discriminate].
  destruct (fopen_ok w json_fn); [|discriminate].
  reflexivity.
Qed.

(** C8, as the code has it.  A successful run of the "empty" plan leaves
    a JSON file that holds the object on one line with two spaces before
    each member name and one space after the colon of data_records and of
    data, then one newline; the timestamp is printed with [%lu], which is
    its decimal text when it is not negative. *)
Theorem C8_empty_json_text (w : World) (numsync : bool)
    (db_fn json_fn : string) :
  result (gen_plan_empty GDBM_NEWDB GDBM_NUMSYNC w numsync db_fn json_fn)
    = Exit 0 ->
  json_file (trace (gen_plan_empty GDBM_NEWDB GDBM_NUMSYNC
                      w numsync db_fn json_fn)) =
    Some (empty_json (fmt_lu (time_now w))) /\
  (0 <= time_now w < 2 ^ 64 -> fmt_lu (time_now w) = decimal (time_now w)).
Proof.
  intros H. split; [|apply fmt_lu_small].
  apply empty_exit_0 in H. rewrite H.
  unfold json_file. cbn [trace fst existsb is_fopen_ok orb file_chunks].
  rewrite !concat_empty_cons. cbn [String.concat].
  rewrite append_nil_r. f_equal. apply empty_json_text.
Qed.

(** ** Closing the store *)

Section CloseShapes.

Variables (R : Z) (db js : string) (flags t : Z).
Variable data : list kv_pair.

Lemma tr_ok_closed :
  existsb is_gdbm_close (tr_ok R db flags js t data) = true /\
  existsb engine_failed (tr_ok R db flags js t data) = false.
Proof.
  unfold tr_ok. cbn [existsb is_gdbm_close engine_failed orb].
  rewrite !existsb_app, !existsb_store_ev by reflexivity.
  cbn [existsb is_gdbm_close engine_failed orb].
  rewrite existsb_app, existsb_fprintf by reflexivity.
  split; reflexivity.
Qed.

Lemma tr_fopen_fail_closed :
  existsb is_gdbm_close (tr_fopen_fail R db flags js data) = true /\
  existsb engine_failed (tr_fopen_fail R db flags js data) = false.
Proof.
  unfold tr_fopen_fail. cbn [existsb is_gdbm_close engine_failed orb].
  rewrite !existsb_app, !existsb_store_ev by reflexivity.
  split; reflexivity.
Qed.

Lemma tr_store_fail_not_closed p rc :
  rc <> 0 ->
  existsb is_gdbm_close (tr_store_fail R db flags data p rc) = false /\
  existsb engine_failed (tr_store_fail R db flags data p rc) = true.
Proof.
  intros Hrc. apply Z.eqb_neq in Hrc.
  unfold tr_store_fail. cbn [existsb is_gdbm_close engine_failed orb].
  rewrite !existsb_app, !existsb_store_ev by reflexivity.
  unfold store_ev. cbn [existsb is_gdbm_close engine_failed orb].
  rewrite Hrc. split; reflexivity.
Qed.

End CloseShapes.

Lemma dispatch_closed_unless_failed w plan numsync db_fn json_fn :
  existsb is_gdbm_open_ok
    (trace (dispatch GDBM_NEWDB GDBM_NUMSYNC GDBM_REPLACE
              w plan numsync db_fn json_fn)) = true ->
  existsb is_gdbm_close
    (trace (dispatch GDBM_NEWDB GDBM_NUMSYNC GDBM_REPLACE
              w plan numsync db_fn json_fn)) =
  negb (existsb engine_failed
    (trace (dispatch GDBM_NEWDB GDBM_NUMSYNC GDBM_REPLACE
              w plan numsync db_fn json_fn))).
Proof.
  destruct (dispatch_cases w plan numsync db_fn json_fn)
    as [[-> Hd]|[[-> Hd]|(_ & _ & Hd)]]; rewrite Hd; clear Hd.
  - destruct (gen_plan_basic_cases GDBM_NEWDB GDBM_NUMSYNC GDBM_REPLACE
                w numsync db_fn json_fn)
      as [[_ ->]|[(_ & pre & p & post & _ & _ & Hrc & ->)
         |[(_ & _ & _ & ->)|(_ & _ & _ & ->)]]]; unfold trace, fst; intros H.
    + discriminate H.
    + destruct (tr_store_fail_not_closed GDBM_REPLACE db_fn
                  (open_flags GDBM_NEWDB GDBM_NUMSYNC numsync) pre p _ Hrc)
        as [-> ->]. reflexivity.
    + destruct (tr_fopen_fail_closed GDBM_REPLACE db_fn json_fn
                  (open_flags GDBM_NEWDB GDBM_NUMSYNC numsync) fill_data)
        as [-> ->]. reflexivity.
    + destruct (tr_ok_closed GDBM_REPLACE db_fn json_fn
                  (open_flags GDBM_NEWDB GDBM_NUMSYNC numsync)
                  (time_now w) fill_data)
        as [-> ->]. reflexivity.
  - unfold gen_plan_empty. cbv zeta.
    destruct (gdbm_open_ok w db_fn 512 _ mode_0666); [|discriminate].
    intros _.
    destruct (gdbm_count_rc w =? 0) eqn:Hrc;
      [|cbn; rewrite Hrc; reflexivity].
    destruct (gdbm_count_val w =? 0);
      [|cbn; rewrite Hrc; reflexivity].
    destruct (fopen_ok w json_fn); cbn; rewrite Hrc; reflexivity.
  - discriminate.
Qed.

(** C9, as the code has it.  On a path on which the store was opened, the
    handle is closed exactly when no later store-engine step failed: the
    count query returned 0 and the count was 0 under "empty", every write
    returned 0 under "basic" -- also when the JSON file then cannot be
    opened.  On the paths on which the count query, the assertion on the
    count or a write fails, the run ends with the handle still open. *)
Theorem C9_closed_unless_engine_failed (w : World) (progname : string)
    (opts : list getopt_result) :
  existsb is_gdbm_open_ok
    (trace (main GDBM_NEWDB GDBM_NUMSYNC GDBM_REPLACE w progname opts)) = true ->
  existsb is_gdbm_close
    (trace (main GDBM_NEWDB GDBM_NUMSYNC GDBM_REPLACE w progname opts)) =
  negb (existsb engine_failed
    (trace (main GDBM_NEWDB GDBM_NUMSYNC GDBM_REPLACE w progname opts))).
Proof.
  destruct (main_cases w progname opts)
    as [->|(l & fn & json & _ & _ & _ & ->)].
  - discriminate.
  - apply dispatch_closed_unless_failed.
Qed.

End Claims.

(** * The claims at concrete inputs

    The constants are those of [gdbm.h]: [GDBM_NEWDB] 3, [GDBM_NUMSYNC]
    0x2000, [GDBM_REPLACE] 1. *)

Lemma C1_witness :
  gdbm_open_ok world_ok "t.db" 512 (open_flags 3 8192 false) mode_0666 = true /\
  stores_succeed 1 world_ok 0 fill_data /\
  fopen_ok world_ok "t.json" = true /\
  result (gen_plan_basic 3 8192 1 world_ok false "t.db" "t.json") = Exit 0 /\
  store_calls (trace (gen_plan_basic 3 8192 1 world_ok false "t.db" "t.json")) =
    map record (zseq 0 (Z.to_nat N_REC)) /\
  json_file (trace (gen_plan_basic 3 8192 1 world_ok false "t.db" "t.json")) =
    Some (json_document (fmt_lu (time_now world_ok)) "10001"
            (map (fun i => "[" +++ dq +++ "key " +++ decimal i +++ dq +++ "," +++
                           dq +++ "value " +++ decimal i +++ dq +++ "]")
                 (zseq 0 (Z.to_nat N_REC)))) /\
  file_chunks (trace (gen_plan_basic 3 8192 1 world_ok false "t.db" "t.json")) =
    json_open (fmt_lu (time_now world_ok)) "10001" ::
    map (fun i => (if i =? 0 then EmptyString else ",") +++
                  "[" +++ dq +++ "key " +++ decimal i +++ dq +++ "," +++
                  dq +++ "value " +++ decimal i +++ dq +++ "]")
        (zseq 0 (Z.to_nat N_REC)) ++
    ["]}" +++ nl].
Proof.
  split; [reflexivity|].
  split; [intros j p _; reflexivity|].
  split; [reflexivity|].
  apply (C1_basic_records_in_order 3 8192 1 world_ok false "t.db" "t.json");
    [reflexivity | intros j p _; reflexivity | reflexivity].
Defined.

Lemma C2_witness :
  json_file (trace (main 3 8192 1 world_ok "testgen"
                      [Opt_o "t.db"; Opt_j "t.json"])) =
    Some (json_document "1700000000" "10001"
            (map (fun i => "[" +++ dq +++ "key " +++ decimal i +++ dq +++ "," +++
                           dq +++ "value " +++ decimal i +++ dq +++ "]")
                 (zseq 0 (Z.to_nat N_REC)))) /\
  exists elements : list string,
    json_document "1700000000" "10001"
      (map (fun i => "[" +++ dq +++ "key " +++ decimal i +++ dq +++ "," +++
                     dq +++ "value " +++ decimal i +++ dq +++ "]")
           (zseq 0 (Z.to_nat N_REC))) =
    json_document (fmt_lu (time_now world_ok))
      (decimal (Z.of_nat (List.length elements))) elements /\
    elements =
      map (fun p => "[" +++ dq +++ key p +++ dq +++ "," +++
                    dq +++ value p +++ dq +++ "]")
        (stores_ok (trace (main 3 8192 1 world_ok "testgen"
                             [Opt_o "t.db"; Opt_j "t.json"]))) /\
    List.length
      (stores_ok (trace (main 3 8192 1 world_ok "testgen"
                           [Opt_o "t.db"; Opt_j "t.json"]))) =
      List.length elements /\
    (forall l,
       getopt_loop [Opt_o "t.db"; Opt_j "t.json"] main_init = Some l ->
       (plan l = "basic" ->
        stores_ok (trace (main 3 8192 1 world_ok "testgen"
                            [Opt_o "t.db"; Opt_j "t.json"])) =
          map record (zseq 0 (Z.to_nat N_REC)) /\
        decimal (Z.of_nat (List.length elements)) = "10001") /\
       (plan l = "empty" ->
        elements = [] /\
        decimal (Z.of_nat (List.length elements)) = "0" /\
        json_document "1700000000" "10001"
          (map (fun i => "[" +++ dq +++ "key " +++ decimal i +++ dq +++ "," +++
                         dq +++ "value " +++ decimal i +++ dq +++ "]")
               (zseq 0 (Z.to_nat N_REC))) =
        empty_json (fmt_lu (time_now world_ok)))).
Proof.
  assert (H : json_file (trace (main 3 8192 1 world_ok "testgen"
                                  [Opt_o "t.db"; Opt_j "t.json"])) =
              Some (json_document "1700000000" "10001"
                (map (fun i => "[" +++ dq +++ "key " +++ decimal i +++ dq +++
                               "," +++ dq +++ "value " +++ decimal i +++ dq +++
                               "]")
                     (zseq 0 (Z.to_nat N_REC))))).
  { change (main 3 8192 1 world_ok "testgen" [Opt_o "t.db"; Opt_j "t.json"])
      with (gen_plan_basic 3 8192 1 world_ok false "t.db" "t.json").
    exact (basic_ok_json_document 3 8192 1 world_ok false "t.db" "t.json"
             eq_refl (fun j p _ => eq_refl) eq_refl). }
  split; [exact H|].
  exact (C2_data_records_count 3 8192 1 world_ok "testgen"
           [Opt_o "t.db"; Opt_j "t.json"] _ H).
Defined.

Lemma C3_witness :
  result (gen_plan_basic 3 8192 1 world_ok true "t.db" "t.json") = Exit 0 /\
  result (gen_plan_basic 3 8192 1 world_late true "t.db" "t.json") = Exit 0 /\
  store_calls (trace (gen_plan_basic 3 8192 1 world_ok true "t.db" "t.json")) =
  store_calls (trace (gen_plan_basic 3 8192 1 world_late true "t.db" "t.json")) /\
  (exists data_array : string,
     json_file (trace (gen_plan_basic 3 8192 1 world_ok true "t.db" "t.json")) =
     Some (json_head (fmt_lu (time_now world_ok)) "10001"
           +++ data_array +++ json_tail) /\
     json_file (trace (gen_plan_basic 3 8192 1 world_late true "t.db" "t.json")) =
     Some (json_head (fmt_lu (time_now world_late)) "10001"
           +++ data_array +++ json_tail)).
Proof.
  assert (H1 : result (gen_plan_basic 3 8192 1 world_ok true "t.db" "t.json")
               = Exit 0)
    by (apply basic_ok_exit_0;
        [reflexivity | intros j p _; reflexivity | reflexivity]).
  assert (H2 : result (gen_plan_basic 3 8192 1 world_late true "t.db" "t.json")
               = Exit 0)
    by (apply basic_ok_exit_0;
        [reflexivity | intros j p _; reflexivity | reflexivity]).
  split; [exact H1|]. split; [exact H2|].
  destruct (C3_basic_deterministic 3 8192 1 world_ok world_late true
              "t.db" "t.json" H1 H2) as (Hs & Hj & _).
  split; [exact Hs | exact Hj].
Defined.

Lemma C4_witness :
  (json_file (trace (dispatch 3 8192 1 world_ok "empty" true "t.db" "t.json")) =
     Some (empty_json "1700000000") /\
   json_file (trace (dispatch 3 8192 1 world_ok "empty" false "t.db" "t.json")) =
     Some (empty_json "1700000000") /\
   stores_ok (trace (dispatch 3 8192 1 world_ok "empty" true "t.db" "t.json")) =
   stores_ok (trace (dispatch 3 8192 1 world_ok "empty" false "t.db" "t.json")))
  /\
  (gdbm_open_ok world_ok "t.db" 512 (open_flags 3 8192 true) mode_0666 =
   gdbm_open_ok world_ok "t.db" 512 (open_flags 3 8192 false) mode_0666 /\
   map erase_flags
     (trace (dispatch 3 8192 1 world_ok "empty" true "t.db" "t.json")) =
   map erase_flags
     (trace (dispatch 3 8192 1 world_ok "empty" false "t.db" "t.json")) /\
   result (dispatch 3 8192 1 world_ok "empty" true "t.db" "t.json") =
   result (dispatch 3 8192 1 world_ok "empty" false "t.db" "t.json") /\
   json_file (trace (dispatch 3 8192 1 world_ok "empty" true "t.db" "t.json")) =
   json_file (trace (dispatch 3 8192 1 world_ok "empty" false "t.db" "t.json"))).
Proof.
  assert (H1 : json_file (trace (dispatch 3 8192 1 world_ok "empty" true
                 "t.db" "t.json")) = Some (empty_json "1700000000"))
    by reflexivity.
  assert (H2 : json_file (trace (dispatch 3 8192 1 world_ok "empty" false
                 "t.db" "t.json")) = Some (empty_json "1700000000"))
    by reflexivity.
  assert (H3 : gdbm_open_ok world_ok "t.db" 512 (open_flags 3 8192 true)
                 mode_0666 =
               gdbm_open_ok world_ok "t.db" 512 (open_flags 3 8192 false)
                 mode_0666) by reflexivity.
  destruct (C4_numsync_independence 3 8192 1 world_ok "empty" "t.db" "t.json")
    as (_ & _ & Ha & Hb).
  split.
  - split; [exact H1|]. split; [exact H2|].
    exact (proj2 (Ha _ _ H1 H2)).
  - split; [exact H3 | exact (Hb H3)].
Defined.

Lemma C5_witness :
  0 <= 2 < N_REC /\
  gdbm_open_ok world_store_fails "t.db" 512 (open_flags 3 8192 false) mode_0666
    = true /\
  gdbm_store_rc world_store_fails (Z.to_nat 2) (key (record 2)) (value (record 2)) 1
    = -1 /\
  gen_plan_basic 3 8192 1 world_store_fails false "t.db" "t.json" =
  ([EvGdbmOpen "t.db" 512 (open_flags 3 8192 false) mode_0666 true;
    EvGdbmStore "key 0" "value 0" 1 0;
    EvGdbmStore "key 1" "value 1" 1 0;
    EvGdbmStore "key 2" "value 2" 1 (-1);
    EvStderr ("gdbm_store failed, rc -1, key key 2" +++ nl)], Exit 1) /\
  existsb is_fopen
    (trace (gen_plan_basic 3 8192 1 world_store_fails false "t.db" "t.json"))
    = false /\
  json_file
    (trace (gen_plan_basic 3 8192 1 world_store_fails false "t.db" "t.json"))
    = None.
Proof.
  assert (Hi : 0 <= 2 < N_REC) by (unfold N_REC; lia).
  split; [exact Hi|]. split; [reflexivity|]. split; [reflexivity|].
  apply (C5_store_write_failure 3 8192 1 world_store_fails false
           "t.db" "t.json" 2 (-1) Hi).
  - reflexivity.
  - intros j Hj. assert (Hj' : j = 0 \/ j = 1) by lia.
    destruct Hj' as [-> | ->]; reflexivity.
  - reflexivity.
  - discriminate.
Defined.

Lemma C6_witness :
  getopt_loop [Opt_o "t.db"; Opt_j "t.json"; Opt_p "nosuchplan"] main_init =
    Some {| out_fn := Some "t.db"; out_json := Some "t.json";
            plan := "nosuchplan"; numsync := false |} /\
  result (main 3 8192 1 world_ok "testgen"
            [Opt_o "t.db"; Opt_j "t.json"; Opt_p "nosuchplan"]) = Exit 1 /\
  existsb is_gdbm_open
    (trace (main 3 8192 1 world_ok "testgen"
              [Opt_o "t.db"; Opt_j "t.json"; Opt_p "nosuchplan"])) = false /\
  existsb is_fopen
    (trace (main 3 8192 1 world_ok "testgen"
              [Opt_o "t.db"; Opt_j "t.json"; Opt_p "nosuchplan"])) = false /\
  json_file
    (trace (main 3 8192 1 world_ok "testgen"
              [Opt_o "t.db"; Opt_j "t.json"; Opt_p "nosuchplan"])) = None /\
  main 3 8192 1 world_ok "testgen"
    [Opt_o "t.db"; Opt_j "t.json"; Opt_p "nosuchplan"] =
  ([EvStderr ("Unknown test plan nosuchplan" +++ nl)], Exit 1).
Proof.
  split; [reflexivity|].
  destruct (C6_unknown_plan 3 8192 1 world_ok "testgen"
              [Opt_o "t.db"; Opt_j "t.json"; Opt_p "nosuchplan"]
              {| out_fn := Some "t.db"; out_json := Some "t.json";
                 plan := "nosuchplan"; numsync := false |})
    as (Hr & Ho & Hf & Hj & Hm);
    [reflexivity | discriminate | discriminate |].
  split; [exact Hr|]. split; [exact Ho|]. split; [exact Hf|].
  split; [exact Hj|].
  exact (Hm "t.db" "t.json" eq_refl eq_refl).
Defined.

Lemma C7_witness :
  gdbm_open_ok world_count5 "t.db" 512 (open_flags 3 8192 false) mode_0666
    = true /\
  gdbm_count_rc world_count5 = 0 /\
  gdbm_count_val world_count5 <> 0 /\
  gen_plan_empty 3 8192 world_count5 false "t.db" "t.json" =
  ([EvGdbmOpen "t.db" 512 (open_flags 3 8192 false) mode_0666 true;
    EvGdbmCount 0 (gdbm_count_val world_count5);
    EvAssertFail], Aborted) /\
  json_file (trace (gen_plan_empty 3 8192 world_count5 false "t.db" "t.json"))
    = None.
Proof.
  assert (Hc : gdbm_count_val world_count5 <> 0) by discriminate.
  split; [reflexivity|]. split; [reflexivity|]. split; [exact Hc|].
  apply (C7_nonzero_count_aborts 3 8192 world_count5 false "t.db" "t.json");
    [reflexivity | reflexivity | exact Hc].
Defined.

(** C7 as the claim words it fails: with a count of five the process is
    aborted by the assertion, it does not exit with status 1. *)
Lemma C7_counterexample :
  gdbm_open_ok world_count5 "t.db" 512 (open_flags 3 8192 false) mode_0666
    = true /\
  gdbm_count_rc world_count5 = 0 /\
  gdbm_count_val world_count5 = 5 /\
  result (gen_plan_empty 3 8192 world_count5 false "t.db" "t.json") = Aborted /\
  result (gen_plan_empty 3 8192 world_count5 false "t.db" "t.json") <> Exit 1.
Proof.
  split; [reflexivity|]. split; [reflexivity|]. split; [reflexivity|].
  split; [reflexivity | discriminate].
Qed.

Lemma C8_witness :
  result (gen_plan_empty 3 8192 world_ok false "t.db" "t.json") = Exit 0 /\
  json_file (trace (gen_plan_empty 3 8192 world_ok false "t.db" "t.json")) =
    Some (empty_json (fmt_lu (time_now world_ok))) /\
  (0 <= time_now world_ok < 2 ^ 64 ->
   fmt_lu (time_now world_ok) = decimal (time_now world_ok)).
Proof.
  split; [reflexivity|].
  apply (C8_empty_json_text 3 8192 world_ok false "t.db" "t.json").
  reflexivity.
Defined.

(** C8 as the claim words it fails: the file written at time 1700000000
    is not the compact text, it has spaces after the opening brace, after
    the commas and after two of the colons. *)
Lemma C8_counterexample :
  result (gen_plan_empty 3 8192 world_ok false "t.db" "t.json") = Exit 0 /\
  json_file (trace (gen_plan_empty 3 8192 world_ok false "t.db" "t.json")) =
    Some ("{  " +++ dq +++ "generated_by" +++ dq +++ ":" +++ dq +++ "testgen" +++ dq +++
          ",  " +++ dq +++ "generated_time" +++ dq +++ ":" +++ dq +++ "1700000000" +++ dq +++
          ",  " +++ dq +++ "data_records" +++ dq +++ ": 0" +++
          ",  " +++ dq +++ "data" +++ dq +++ ": []}" +++ nl) /\
  json_file (trace (gen_plan_empty 3 8192 world_ok false "t.db" "t.json")) <>
    Some ("{" +++ dq +++ "generated_by" +++ dq +++ ":" +++ dq +++ "testgen" +++ dq +++
          "," +++ dq +++ "generated_time" +++ dq +++ ":" +++ dq +++ "1700000000" +++ dq +++
          "," +++ dq +++ "data_records" +++ dq +++ ":0" +++
          "," +++ dq +++ "data" +++ dq +++ ":[]}" +++ nl).
Proof.
  split; [reflexivity|]. split; [reflexivity|].
  vm_compute. discriminate.
Qed.

Lemma C9_witness :
  existsb is_gdbm_open_ok
    (trace (main 3 8192 1 world_ok "testgen"
              [Opt_o "t.db"; Opt_j "t.json"; Opt_p "empty"])) = true /\
  existsb is_gdbm_close
    (trace (main 3 8192 1 world_ok "testgen"
              [Opt_o "t.db"; Opt_j "t.json"; Opt_p "empty"])) =
  negb (existsb engine_failed
    (trace (main 3 8192 1 world_ok "testgen"
              [Opt_o "t.db"; Opt_j "t.json"; Opt_p "empty"]))).
Proof.
  split; [reflexivity|].
  apply (C9_closed_unless_engine_failed 3 8192 1 world_ok "testgen"
           [Opt_o "t.db"; Opt_j "t.json"; Opt_p "empty"]).
  reflexivity.
Defined.

(** C9 as the claim words it fails: when [gdbm_count] fails under "empty",
    and when the third write fails under "basic", the store was opened and
    the run returns 1 without a [gdbm_close]. *)
Lemma C9_counterexample :
  (main 3 8192 1 world_count_fails "testgen"
     [Opt_o "t.db"; Opt_j "t.json"; Opt_p "empty"] =
   ([EvGdbmOpen "t.db" 512 3 438 true;
     EvGdbmCount (-1) 0;
     EvStderr ("gdbm_count failed" +++ nl)], Exit 1) /\
   existsb is_gdbm_open_ok
     (trace (main 3 8192 1 world_count_fails "testgen"
               [Opt_o "t.db"; Opt_j "t.json"; Opt_p "empty"])) = true /\
   existsb is_gdbm_close
     (trace (main 3 8192 1 world_count_fails "testgen"
               [Opt_o "t.db"; Opt_j "t.json"; Opt_p "empty"])) = false) /\
  (main 3 8192 1 world_store_fails "testgen" [Opt_o "t.db"; Opt_j "t.json"] =
   ([EvGdbmOpen "t.db" 512 3 438 true;
     EvGdbmStore "key 0" "value 0" 1 0;
     EvGdbmStore "key 1" "value 1" 1 0;
     EvGdbmStore "key 2" "value 2" 1 (-1);
     EvStderr ("gdbm_store failed, rc -1, key key 2" +++ nl)], Exit 1) /\
   existsb is_gdbm_open_ok
     (trace (main 3 8192 1 world_store_fails "testgen"
               [Opt_o "t.db"; Opt_j "t.json"])) = true /\
   existsb is_gdbm_close
     (trace (main 3 8192 1 world_store_fails "testgen"
               [Opt_o "t.db"; Opt_j "t.json"])) = false).
Proof.
  split.
  - split; [reflexivity|]. split; reflexivity.
  - assert (Hmain :
      main 3 8192 1 world_store_fails "testgen" [Opt_o "t.db"; Opt_j "t.json"] =
      gen_plan_basic 3 8192 1 world_store_fails false "t.db" "t.json")
      by reflexivity.
    assert (Hrun :
      main 3 8192 1 world_store_fails "testgen" [Opt_o "t.db"; Opt_j "t.json"] =
      ([EvGdbmOpen "t.db" 512 3 438 true;
        EvGdbmStore "key 0" "value 0" 1 0;
        EvGdbmStore "key 1" "value 1" 1 0;
        EvGdbmStore "key 2" "value 2" 1 (-1);
        EvStderr ("gdbm_store failed, rc -1, key key 2" +++ nl)], Exit 1)).
    { rewrite Hmain.
      rewrite (gen_plan_basic_fails_at 3 8192 1 world_store_fails false
                 "t.db" "t.json" 2 (-1)).
      - reflexivity.
      - unfold N_REC; lia.
      - reflexivity.
      - intros j Hj. assert (Hj' : j = 0 \/ j = 1) by lia.
        destruct Hj' as [-> | ->]; reflexivity.
      - reflexivity.
      - discriminate. }
    rewrite Hrun. split; [reflexivity|]. split; reflexivity.
Qed.

Lemma C10_witness :
  0 <= 10000 < N_REC /\
  (String.length ("key " +++ fmt_u 10000) < sizeof_s)%nat /\
  (String.length ("value " +++ fmt_u 10000) < sizeof_s)%nat /\
  sizeof_s = 128%nat /\
  key (fill_pair 10000) = "key " +++ decimal 10000 /\
  value (fill_pair 10000) = "value " +++ decimal 10000.
Proof.
  assert (Hi : 0 <= 10000 < N_REC) by (unfold N_REC; lia).
  split; [exact Hi|].
  exact (proj1 C10_no_truncation_distinct_keys 10000 Hi).
Defined.

(** * Further properties of the program *)

(** ** Option parsing *)

Lemma getopt_loop_app (a b : list getopt_result) (l : locals) :
  getopt_loop (a ++ b) l =
  match getopt_loop a l with
  | Some l' => getopt_loop b l'
  | None => None
  end.
Proof.
  revert l; induction a as [|o a IH]; intros l; [reflexivity|].
  destruct o; cbn [app getopt_loop]; auto.
Qed.

Lemma getopt_loop_rejected (pre post : list getopt_result) (l : locals) :
  getopt_loop (pre ++ Opt_other :: post) l = None.
Proof.
  rewrite getopt_loop_app.
  destruct (getopt_loop pre l); reflexivity.
Qed.

Lemma last_cons {A} (x : A) (l : list A) (d : A) :
  last (x :: l) d = last l x.
Proof.
  revert x d; induction l as [|y l IH]; intros x d; [reflexivity|].
  change (last (x :: y :: l) d) with (last (y :: l) d).
  now rewrite (IH y d), (IH y x).
Qed.

Lemma getopt_loop_spec (opts : list getopt_result) : forall l : locals,
  existsb is_opt_other opts = false ->
  getopt_loop opts l =
  Some {| out_fn := last (map Some (opt_o_args opts)) (out_fn l);
          out_json := last (map Some (opt_j_args opts)) (out_json l);
          plan := last (opt_p_args opts) (plan l);
          numsync := numsync l || existsb is_opt_n opts |}.
Proof.
  induction opts as [|o opts IH]; intros l H.
  - cbn. rewrite orb_false_r. now destruct l.
  - destruct o; cbn [existsb is_opt_other orb] in H; try discriminate H;
      cbn [getopt_loop]; rewrite (IH _ H);
      unfold opt_o_args, opt_j_args, opt_p_args;
      cbn [flat_map app map existsb is_opt_n orb
           out_fn out_json plan numsync];
      rewrite ?last_cons; try reflexivity.
    now rewrite orb_true_r.
Qed.

Lemma getopt_loop_keeps_out_fn (opts : list getopt_result) : forall l l',
  opt_o_args opts = [] ->
  getopt_loop opts l = Some l' -> out_fn l' = out_fn l.
Proof.
  induction opts as [|o opts IH]; intros l l' Ho H.
  - now injection H as <-.
  - destruct o; cbn [getopt_loop] in H; try discriminate;
      unfold opt_o_args in Ho; cbn [flat_map app] in Ho; try discriminate;
      now rewrite (IH _ _ Ho H).
Qed.

Lemma getopt_loop_keeps_out_json (opts : list getopt_result) : forall l l',
  opt_j_args opts = [] ->
  getopt_loop opts l = Some l' -> out_json l' = out_json l.
Proof.
  induction opts as [|o opts IH]; intros l l' Ho H.
  - now injection H as <-.
  - destruct o; cbn [getopt_loop] in H; try discriminate;
      unfold opt_j_args in Ho; cbn [flat_map app] in Ho; try discriminate;
      now rewrite (IH _ _ Ho H).
Qed.

Section Extras.

Variables GDBM_NEWDB GDBM_NUMSYNC GDBM_REPLACE : Z.

(** X1.  An option that [getopt] rejects, wherever it stands on the
    command line and whatever the other options say, makes [main] print
    the usage text and return 1 without opening the store or the JSON
    file. *)
Theorem X1_rejected_option_usage (w : World) (progname : string)
    (pre post : list getopt_result) :
  main GDBM_NEWDB GDBM_NUMSYNC GDBM_REPLACE w progname
    (pre ++ Opt_other :: post) = usage progname (return_ 1) /\
  result (usage progname (return_ 1)) = Exit 1 /\
  existsb is_gdbm_open (trace (usage progname (return_ 1))) = false /\
  existsb is_fopen (trace (usage progname (return_ 1))) = false /\
  exists rest : string,
    trace (usage progname (return_ 1)) =
    [EvStderr ("Usage: " +++ progname +++
               " -o output-db -j output-json [options]" +++ nl);
     EvStderr rest].
Proof.
  split.
  - unfold main. now rewrite getopt_loop_rejected.
  - repeat split. eexists. reflexivity.
Qed.

(** X2.  Without a [-o] option, or without a [-j] option, [main] prints
    the usage text and returns 1, whatever plan is named -- a valid one,
    an unknown one or none -- and whether or not [-n] is given. *)
Theorem X2_missing_file_name_usage (w : World) (progname : string)
    (opts : list getopt_result) :
  opt_o_args opts = [] \/ opt_j_args opts = [] ->
  main GDBM_NEWDB GDBM_NUMSYNC GDBM_REPLACE w progname opts =
  usage progname (return_ 1).
Proof.
  intros H. unfold main.
  destruct (getopt_loop opts main_init) as [l|] eqn:Hl; [|reflexivity].
  destruct H as [H|H].
  - rewrite (getopt_loop_keeps_out_fn opts main_init l H Hl). reflexivity.
  - rewrite (getopt_loop_keeps_out_json opts main_init l H Hl).
    now destruct (out_fn l).
Qed.

(** X3.  On a command line without a rejected option the loop over
    [getopt] ends with: the output names of the last [-o] and the last
    [-j] (none if there was none), the plan of the last [-p] ("basic" if
    there was none), and numsync set exactly when some [-n] was given. *)
Theorem X3_last_option_wins (opts : list getopt_result) :
  existsb is_opt_other opts = false ->
  getopt_loop opts main_init =
  Some {| out_fn := last (map Some (opt_o_args opts)) None;
          out_json := last (map Some (opt_j_args opts)) None;
          plan := last (opt_p_args opts) "basic";
          numsync := existsb is_opt_n opts |}.
Proof.
  intros H. now rewrite (getopt_loop_spec opts main_init H).
Qed.

(** ** Every run of [main] has one of ten shapes *)

Lemma gen_plan_empty_cases w numsync db_fn json_fn :
  (gdbm_open_ok w db_fn 512 (open_flags GDBM_NEWDB GDBM_NUMSYNC numsync)
     mode_0666 = false /\
   gen_plan_empty GDBM_NEWDB GDBM_NUMSYNC w numsync db_fn json_fn =
   (tr_open_fail db_fn (open_flags GDBM_NEWDB GDBM_NUMSYNC numsync), Exit 1))
  \/
  (gdbm_open_ok w db_fn 512 (open_flags GDBM_NEWDB GDBM_NUMSYNC numsync)
     mode_0666 = true /\
   gdbm_count_rc w <> 0 /\
   gen_plan_empty GDBM_NEWDB GDBM_NUMSYNC w numsync db_fn json_fn =
   (tr_empty_count_fail db_fn (open_flags GDBM_NEWDB GDBM_NUMSYNC numsync)
      (gdbm_count_rc w) (gdbm_count_val w), Exit 1))
  \/
  (gdbm_open_ok w db_fn 512 (open_flags GDBM_NEWDB GDBM_NUMSYNC numsync)
     mode_0666 = true /\
   gdbm_count_rc w = 0 /\ gdbm_count_val w <> 0 /\
   gen_plan_empty GDBM_NEWDB GDBM_NUMSYNC w numsync db_fn json_fn =
   (tr_empty_assert db_fn (open_flags GDBM_NEWDB GDBM_NUMSYNC numsync)
      (gdbm_count_val w), Aborted))
  \/
  (gdbm_open_ok w db_fn 512 (open_flags GDBM_NEWDB GDBM_NUMSYNC numsync)
     mode_0666 = true /\
   gdbm_count_rc w = 0 /\ gdbm_count_val w = 0 /\
   fopen_ok w json_fn = false /\
   gen_plan_empty GDBM_NEWDB GDBM_NUMSYNC w numsync db_fn json_fn =
   (tr_empty_fopen_fail db_fn (open_flags GDBM_NEWDB GDBM_NUMSYNC numsync)
      json_fn, Exit 1))
  \/
  (gdbm_open_ok w db_fn 512 (open_flags GDBM_NEWDB GDBM_NUMSYNC numsync)
     mode_0666 = true /\
   gdbm_count_rc w = 0 /\ gdbm_count_val w = 0 /\
   fopen_ok w json_fn = true /\
   gen_plan_empty GDBM_NEWDB GDBM_NUMSYNC w numsync db_fn json_fn =
   (tr_empty_ok db_fn (open_flags GDBM_NEWDB GDBM_NUMSYNC numsync)
      json_fn (time_now w), Exit 0)).
Proof.
  unfold gen_plan_empty. cbv zeta.
  destruct (gdbm_open_ok w db_fn 512 _ mode_0666); [|left; now split].
  right.
  destruct (Z.eqb_spec (gdbm_count_rc w) 0) as [Hrc|Hrc];
    [|left; split; [reflexivity|]; split; [assumption | reflexivity]].
  right. rewrite Hrc.
  destruct (Z.eqb_spec (gdbm_count_val w) 0) as [Hc|Hc];
    [|left; split; [reflexivity|]; split; [reflexivity|];
      split; [assumption | reflexivity]].
  right. rewrite Hc.
  destruct (fopen_ok w json_fn).
  - right. repeat split.
  - left. repeat split.
Qed.

(** What holds of each shape holds of every run.  The records written
    are kept arbitrary: none of the properties below looks into them. *)
Lemma dispatch_run_shapes (P : run -> Prop) (db json : string) (ns : bool) :
  (forall name,
     P ([EvStderr ("Unknown test plan " +++ name +++ nl)], Exit 1)) ->
  P (tr_open_fail db (open_flags GDBM_NEWDB GDBM_NUMSYNC ns), Exit 1) ->
  (forall pre p rc, rc <> 0 ->
     P (tr_store_fail GDBM_REPLACE db
          (open_flags GDBM_NEWDB GDBM_NUMSYNC ns) pre p rc, Exit 1)) ->
  (forall data,
     P (tr_fopen_fail GDBM_REPLACE db
          (open_flags GDBM_NEWDB GDBM_NUMSYNC ns) json data, Exit 1)) ->
  (forall t data,
     P (tr_ok GDBM_REPLACE db
          (open_flags GDBM_NEWDB GDBM_NUMSYNC ns) json t data, Exit 0)) ->
  (forall rc count, rc <> 0 ->
     P (tr_empty_count_fail db
          (open_flags GDBM_NEWDB GDBM_NUMSYNC ns) rc count, Exit 1)) ->
  (forall count, count <> 0 ->
     P (tr_empty_assert db
          (open_flags GDBM_NEWDB GDBM_NUMSYNC ns) count, Aborted)) ->
  P (tr_empty_fopen_fail db
       (open_flags GDBM_NEWDB GDBM_NUMSYNC ns) json, Exit 1) ->
  (forall t,
     P (tr_empty_ok db
          (open_flags GDBM_NEWDB GDBM_NUMSYNC ns) json t, Exit 0)) ->
  forall w plan,
    P (dispatch GDBM_NEWDB GDBM_NUMSYNC GDBM_REPLACE w plan ns db json).
Proof.
  intros Hn Ho Hs Hf Hk Hc Ha Hef Hek w plan.
  destruct (dispatch_cases GDBM_NEWDB GDBM_NUMSYNC GDBM_REPLACE
              w plan ns db json)
    as [[_ ->]|[[_ ->]|(_ & _ & ->)]]; [| |apply Hn].
  - destruct (gen_plan_basic_cases GDBM_NEWDB GDBM_NUMSYNC GDBM_REPLACE
                w ns db json)
      as [[_ ->]|[(_ & pre & p & post & _ & _ & Hrc & ->)
         |[(_ & _ & _ & ->)|(_ & _ & _ & ->)]]].
    + apply Ho.
    + now apply Hs.
    + apply Hf.
    + apply Hk.
  - destruct (gen_plan_empty_cases w ns db json)
      as [[_ ->]|[(_ & Hrc & ->)|[(_ & _ & Hcnt & ->)
         |[(_ & _ & _ & _ & ->)|(_ & _ & _ & _ & ->)]]]].
    + apply Ho.
    + now apply Hc.
    + now apply Ha.
    + apply Hef.
    + apply Hek.
Qed.

Lemma main_run_shapes (P : run -> Prop) :
  (forall progname, P (usage progname (return_ 1))) ->
  (forall name,
     P ([EvStderr ("Unknown test plan " +++ name +++ nl)], Exit 1)) ->
  (forall db ns,
     P (tr_open_fail db (open_flags GDBM_NEWDB GDBM_NUMSYNC ns), Exit 1)) ->
  (forall db ns pre p rc, rc <> 0 ->
     P (tr_store_fail GDBM_REPLACE db
          (open_flags GDBM_NEWDB GDBM_NUMSYNC ns) pre p rc, Exit 1)) ->
  (forall db ns json data,
     P (tr_fopen_fail GDBM_REPLACE db
          (open_flags GDBM_NEWDB GDBM_NUMSYNC ns) json data, Exit 1)) ->
  (forall db ns json t data,
     P (tr_ok GDBM_REPLACE db
          (open_flags GDBM_NEWDB GDBM_NUMSYNC ns) json t data, Exit 0)) ->
  (forall db ns rc count, rc <> 0 ->
     P (tr_empty_count_fail db
          (open_flags GDBM_NEWDB GDBM_NUMSYNC ns) rc count, Exit 1)) ->
  (forall db ns count, count <> 0 ->
     P (tr_empty_assert db
          (open_flags GDBM_NEWDB GDBM_NUMSYNC ns) count, Aborted)) ->
  (forall db ns json,
     P (tr_empty_fopen_fail db
          (open_flags GDBM_NEWDB GDBM_NUMSYNC ns) json, Exit 1)) ->
  (forall db ns json t,
     P (tr_empty_ok db
          (open_flags GDBM_NEWDB GDBM_NUMSYNC ns) json t, Exit 0)) ->
  forall w progname opts,
    P (main GDBM_NEWDB GDBM_NUMSYNC GDBM_REPLACE w progname opts).
Proof.
  intros Hu Hn Ho Hs Hf Hk Hc Ha Hef Hek w progname opts.
  destruct (main_cases GDBM_NEWDB GDBM_NUMSYNC GDBM_REPLACE w progname opts)
    as [->|(l & fn & json & _ & _ & _ & ->)]; [apply Hu|].
  apply dispatch_run_shapes; auto.
Qed.

(** ** Observations on the shapes *)

Section ShapeFacts.

Variables (R : Z) (db js : string) (flags t : Z).
Variable data : list kv_pair.
Variable f : event -> bool.
Hypothesis f_store : forall rc p, f (store_ev R rc p) = false.
Hypothesis f_fprintf : forall s, f (EvFprintf s) = false.

Lemma existsb_tr_ok :
  existsb f (tr_ok R db flags js t data) =
  f (EvGdbmOpen db 512 flags mode_0666 true) ||
  (f EvGdbmClose || (f (EvFopen js true) || f EvFclose)).
Proof.
  unfold tr_ok. cbn [existsb].
  rewrite existsb_app, existsb_store_ev by apply f_store.
  cbn [existsb orb].
  rewrite existsb_app, existsb_fprintf by apply f_fprintf.
  cbn [existsb orb]. rewrite !f_fprintf. cbn [orb]. now rewrite orb_false_r.
Qed.

Lemma existsb_tr_fopen_fail :
  existsb f (tr_fopen_fail R db flags js data) =
  f (EvGdbmOpen db 512 flags mode_0666 true) ||
  (f EvGdbmClose || (f (EvFopen js false) ||
   f (EvStderr ("fopen failed" +++ nl)))).
Proof.
  unfold tr_fopen_fail. cbn [existsb].
  rewrite existsb_app, existsb_store_ev by apply f_store.
  cbn [existsb orb]. now rewrite !orb_false_r.
Qed.

Lemma existsb_tr_store_fail p rc :
  existsb f (tr_store_fail R db flags data p rc) =
  f (EvGdbmOpen db 512 flags mode_0666 true) ||
  f (EvStderr (store_failed_msg rc p)).
Proof.
  unfold tr_store_fail. cbn [existsb].
  rewrite existsb_app, existsb_store_ev by apply f_store.
  cbn [existsb orb]. rewrite f_store. cbn [orb]. now rewrite orb_false_r.
Qed.

End ShapeFacts.

Section ProtocolFacts.

Variables (R : Z) (db js : string) (flags t : Z).
Variable data : list kv_pair.

Lemma run_protocol_app s a b :
  run_protocol s (a ++ b) =
  match run_protocol s a with
  | Some s' => run_protocol s' b
  | None => None
  end.
Proof.
  revert s; induction a as [|e a IH]; intros s; [reflexivity|].
  cbn [app run_protocol]. destruct (protocol_step s e); auto.
Qed.

Lemma run_protocol_stores rc :
  run_protocol StoreOpen (map (store_ev R rc) data) = Some StoreOpen.
Proof. induction data as [|p l IH]; [reflexivity | exact IH]. Qed.

Lemma run_protocol_fprintf (l : list string) :
  run_protocol StreamOpen (map EvFprintf l) = Some StreamOpen.
Proof. induction l as [|s l IH]; [reflexivity | exact IH]. Qed.

Lemma run_protocol_tr_ok :
  run_protocol NoHandle (tr_ok R db flags js t data) = Some StreamClosed.
Proof.
  unfold tr_ok. cbn [run_protocol protocol_step].
  rewrite run_protocol_app, run_protocol_stores.
  cbn [run_protocol protocol_step].
  now rewrite run_protocol_app, run_protocol_fprintf.
Qed.

Lemma run_protocol_tr_fopen_fail :
  run_protocol NoHandle (tr_fopen_fail R db flags js data) = Some StoreClosed.
Proof.
  unfold tr_fopen_fail. cbn [run_protocol protocol_step].
  now rewrite run_protocol_app, run_protocol_stores.
Qed.

Lemma run_protocol_tr_store_fail p rc :
  run_protocol NoHandle (tr_store_fail R db flags data p rc) = Some StoreOpen.
Proof.
  unfold tr_store_fail. cbn [run_protocol protocol_step].
  now rewrite run_protocol_app, run_protocol_stores.
Qed.

Lemma forallb_store_ev flag rc :
  forallb (store_flag_is flag) (map (store_ev flag rc) data) = true.
Proof.
  induction data as [|p l IH]; [reflexivity|].
  cbn [map forallb store_ev store_flag_is]. now rewrite Z.eqb_refl.
Qed.

Lemma forallb_fprintf flag (l : list string) :
  forallb (store_flag_is flag) (map EvFprintf l) = true.
Proof. induction l as [|s l IH]; [reflexivity | exact IH]. Qed.

Lemma forallb_tr_ok :
  forallb (store_flag_is R) (tr_ok R db flags js t data) = true.
Proof.
  unfold tr_ok. cbn [forallb store_flag_is andb].
  rewrite forallb_app, forallb_store_ev. cbn [forallb store_flag_is andb].
  now rewrite forallb_app, forallb_fprintf.
Qed.

Lemma forallb_tr_fopen_fail :
  forallb (store_flag_is R) (tr_fopen_fail R db flags js data) = true.
Proof.
  unfold tr_fopen_fail. cbn [forallb store_flag_is andb].
  now rewrite forallb_app, forallb_store_ev.
Qed.

Lemma forallb_tr_store_fail p rc :
  forallb (store_flag_is R) (tr_store_fail R db flags data p rc) = true.
Proof.
  unfold tr_store_fail. cbn [forallb store_flag_is andb].
  rewrite forallb_app, forallb_store_ev.
  cbn [forallb store_ev store_flag_is andb]. now rewrite Z.eqb_refl.
Qed.

Lemma later_opens_tr_ok :
  existsb is_gdbm_open (tl (tr_ok R db flags js t data)) = false.
Proof.
  unfold tr_ok. cbn [tl].
  rewrite existsb_app, existsb_store_ev by reflexivity.
  cbn [existsb is_gdbm_open orb].
  now rewrite existsb_app, existsb_fprintf by reflexivity.
Qed.

Lemma later_opens_tr_fopen_fail :
  existsb is_gdbm_open (tl (tr_fopen_fail R db flags js data)) = false.
Proof.
  unfold tr_fopen_fail. cbn [tl].
  now rewrite existsb_app, existsb_store_ev by reflexivity.
Qed.

Lemma later_opens_tr_store_fail p rc :
  existsb is_gdbm_open (tl (tr_store_fail R db flags data p rc)) = false.
Proof.
  unfold tr_store_fail. cbn [tl].
  now rewrite existsb_app, existsb_store_ev by reflexivity.
Qed.

End ProtocolFacts.

(** ** How a run ends *)

(** X4.  [main] returns 0 exactly when the [fopen] of the JSON file
    succeeded: every failure of a run lies before that point or is that
    [fopen] itself, and once the stream is open no step of the run can
    turn it into a failure. *)
Theorem X4_exit_0_iff_json_opened (w : World) (progname : string)
    (opts : list getopt_result) :
  result (main GDBM_NEWDB GDBM_NUMSYNC GDBM_REPLACE w progname opts) = Exit 0
  <->
  existsb is_fopen_ok
    (trace (main GDBM_NEWDB GDBM_NUMSYNC GDBM_REPLACE w progname opts)) = true.
Proof.
  apply (main_run_shapes
           (fun r => result r = Exit 0 <->
                     existsb is_fopen_ok (trace r) = true));
    intros; unfold result, trace, fst, snd.
  - split; discriminate.
  - split; discriminate.
  - split; discriminate.
  - rewrite existsb_tr_store_fail by reflexivity. split; discriminate.
  - rewrite existsb_tr_fopen_fail by reflexivity. split; discriminate.
  - rewrite existsb_tr_ok by reflexivity. split; reflexivity.
  - split; discriminate.
  - split; discriminate.
  - split; discriminate.
  - split; reflexivity.
Qed.

(** X5.  The process is aborted in one situation only: both file names
    were given, the plan is "empty", the store opened, [gdbm_count]
    succeeded and reported a count other than zero.  In particular the
    "basic" plan never aborts. *)
Theorem X5_aborted_iff (w : World) (progname : string)
    (opts : list getopt_result) :
  result (main GDBM_NEWDB GDBM_NUMSYNC GDBM_REPLACE w progname opts) = Aborted
  <->
  exists l fn json,
    getopt_loop opts main_init = Some l /\
    out_fn l = Some fn /\ out_json l = Some json /\
    plan l = "empty" /\
    gdbm_open_ok w fn 512 (open_flags GDBM_NEWDB GDBM_NUMSYNC (numsync l))
      mode_0666 = true /\
    gdbm_count_rc w = 0 /\
    gdbm_count_val w <> 0.
Proof.
  split.
  - destruct (main_cases GDBM_NEWDB GDBM_NUMSYNC GDBM_REPLACE w progname opts)
      as [->|(l & fn & json & Hl & Hfn & Hjs & ->)]; [discriminate|].
    destruct (dispatch_cases GDBM_NEWDB GDBM_NUMSYNC GDBM_REPLACE
                w (plan l) (numsync l) fn json)
      as [[_ ->]|[[Hp ->]|(_ & _ & ->)]]; [| |discriminate].
    + destruct (gen_plan_basic_cases GDBM_NEWDB GDBM_NUMSYNC GDBM_REPLACE
                  w (numsync l) fn json)
        as [[_ ->]|[(_ & pre & p & post & _ & _ & _ & ->)
           |[(_ & _ & _ & ->)|(_ & _ & _ & ->)]]]; discriminate.
    + destruct (gen_plan_empty_cases w (numsync l) fn json)
        as [[_ ->]|[(_ & _ & ->)|[(Hopen & Hrc & Hcnt & ->)
           |[(_ & _ & _ & _ & ->)|(_ & _ & _ & _ & ->)]]]];
        try discriminate.
      intros _. exists l, fn, json. repeat split; assumption.
  - intros (l & fn & json & Hl & Hfn & Hjs & Hp & Hopen & Hrc & Hcnt).
    unfold main. rewrite Hl, Hfn, Hjs, Hp, dispatch_empty.
    unfold gen_plan_empty. cbv zeta. rewrite Hopen, Hrc.
    apply Z.eqb_neq in Hcnt. now rewrite Hcnt.
Qed.

(** X6.  A run writes to the error stream exactly when it does not
    return 0: a return of 1 always comes with a diagnostic or the usage
    text printed by the program, an abort comes with the message of the
    failed assertion, and a run that returns 0 writes nothing there. *)
Theorem X6_stderr_iff_not_exit_0 (w : World) (progname : string)
    (opts : list getopt_result) :
  (existsb is_stderr
     (trace (main GDBM_NEWDB GDBM_NUMSYNC GDBM_REPLACE w progname opts)) = true
   <->
   result (main GDBM_NEWDB GDBM_NUMSYNC GDBM_REPLACE w progname opts)
     <> Exit 0) /\
  (result (main GDBM_NEWDB GDBM_NUMSYNC GDBM_REPLACE w progname opts) = Exit 1 ->
   exists text,
     In (EvStderr text)
       (trace (main GDBM_NEWDB GDBM_NUMSYNC GDBM_REPLACE w progname opts))) /\
  (result (main GDBM_NEWDB GDBM_NUMSYNC GDBM_REPLACE w progname opts) = Aborted ->
   In EvAssertFail
     (trace (main GDBM_NEWDB GDBM_NUMSYNC GDBM_REPLACE w progname opts))).
Proof.
  apply (main_run_shapes
           (fun r =>
              (existsb is_stderr (trace r) = true <-> result r <> Exit 0) /\
              (result r = Exit 1 -> exists text, In (EvStderr text) (trace r)) /\
              (result r = Aborted -> In EvAssertFail (trace r))));
    intros; unfold result, trace, fst, snd.
  - split; [split; [discriminate | reflexivity]|].
    split; [|discriminate].
    intros _. eexists. left. reflexivity.
  - split; [split; [discriminate | reflexivity]|].
    split; [|discriminate].
    intros _. eexists. left. reflexivity.
  - split; [split; [discriminate | reflexivity]|].
    split; [|discriminate].
    intros _. eexists. right. left. reflexivity.
  - rewrite existsb_tr_store_fail by reflexivity.
    split; [split; [discriminate | reflexivity]|].
    split; [|discriminate].
    intros _. eexists. unfold tr_store_fail.
    right. apply in_or_app. right. right. left. reflexivity.
  - rewrite existsb_tr_fopen_fail by reflexivity.
    split; [split; [discriminate | reflexivity]|].
    split; [|discriminate].
    intros _. eexists. unfold tr_fopen_fail.
    right. apply in_or_app. right. right. right. left. reflexivity.
  - rewrite existsb_tr_ok by reflexivity.
    split; [split; [discriminate | intros H; now contradiction H]|].
    split; discriminate.
  - split; [split; [discriminate | reflexivity]|].
    split; [|discriminate].
    intros _. eexists. right. right. left. reflexivity.
  - split; [split; [discriminate | reflexivity]|].
    split; [discriminate|].
    intros _. right. right. left. reflexivity.
  - split; [split; [discriminate | reflexivity]|].
    split; [|discriminate].
    intros _. eexists. right. right. right. right. left. reflexivity.
  - split; [split; [discriminate | intros H; now contradiction H]|].
    split; discriminate.
Qed.

(** ** What the store and the stream are asked *)

(** X7.  Every [gdbm_store] call of every run passes [GDBM_REPLACE]. *)
Theorem X7_stores_replace (w : World) (progname : string)
    (opts : list getopt_result) :
  forallb (store_flag_is GDBM_REPLACE)
    (trace (main GDBM_NEWDB GDBM_NUMSYNC GDBM_REPLACE w progname opts)) = true.
Proof.
  apply (main_run_shapes
           (fun r => forallb (store_flag_is GDBM_REPLACE) (trace r) = true));
    intros; unfold trace, fst; try reflexivity.
  - apply forallb_tr_store_fail.
  - apply forallb_tr_fopen_fail.
  - apply forallb_tr_ok.
Qed.

(** X8.  A run calls [gdbm_open] at most once, and then before anything
    else; the call asks for block size 512 and mode 0666, with the flags
    [GDBM_NEWDB], joined with [GDBM_NUMSYNC] or not. *)
Theorem X8_single_open_first (w : World) (progname : string)
    (opts : list getopt_result) :
  existsb is_gdbm_open
    (tl (trace (main GDBM_NEWDB GDBM_NUMSYNC GDBM_REPLACE w progname opts)))
    = false /\
  forall path bs fl mode ok,
    In (EvGdbmOpen path bs fl mode ok)
      (trace (main GDBM_NEWDB GDBM_NUMSYNC GDBM_REPLACE w progname opts)) ->
    hd_error (trace (main GDBM_NEWDB GDBM_NUMSYNC GDBM_REPLACE w progname opts))
      = Some (EvGdbmOpen path bs fl mode ok) /\
    bs = 512 /\ mode = 438 /\
    (fl = GDBM_NEWDB \/ fl = Z.lor GDBM_NEWDB GDBM_NUMSYNC).
Proof.
  assert (Hfl : forall ns,
            open_flags GDBM_NEWDB GDBM_NUMSYNC ns = GDBM_NEWDB \/
            open_flags GDBM_NEWDB GDBM_NUMSYNC ns =
              Z.lor GDBM_NEWDB GDBM_NUMSYNC).
  { intros [|]; [now right | left; apply Z.lor_0_r]. }
  assert (Hin : forall (tr : list event) e,
            existsb is_gdbm_open (tl tr) = false ->
            In e tr -> is_gdbm_open e = true -> hd_error tr = Some e).
  { intros tr e Htl Hi He. destruct tr as [|e0 tr]; [contradiction|].
    destruct Hi as [<-|Hi]; [reflexivity|].
    cbn [tl] in Htl.
    assert (Hex : existsb is_gdbm_open tr = true)
      by (apply existsb_exists; now exists e).
    congruence. }
  apply (main_run_shapes
           (fun r =>
              existsb is_gdbm_open (tl (trace r)) = false /\
              forall path bs fl mode ok,
                In (EvGdbmOpen path bs fl mode ok) (trace r) ->
                hd_error (trace r) = Some (EvGdbmOpen path bs fl mode ok) /\
                bs = 512 /\ mode = 438 /\
                (fl = GDBM_NEWDB \/ fl = Z.lor GDBM_NEWDB GDBM_NUMSYNC)));
    intros; unfold trace, fst.
  1, 2: split; [reflexivity|];
    intros path bs fl mode ok Hi;
    apply Hin in Hi; [discriminate Hi | reflexivity | reflexivity].
  all: match goal with
       | |- existsb _ (tl ?tr) = false /\ _ =>
           assert (Htl : existsb is_gdbm_open (tl tr) = false)
       end;
    [ first [ reflexivity
            | apply later_opens_tr_store_fail
            | apply later_opens_tr_fopen_fail
            | apply later_opens_tr_ok ]
    | split; [exact Htl|];
      intros path bs fl mode ok Hi;
      apply (Hin _ _ Htl) in Hi; [|reflexivity];
      split; [exact Hi|];
      injection Hi as <- <- <- <- <-;
      split; [reflexivity|]; split; [reflexivity|]; apply Hfl ].
Qed.

(** X9.  Every run uses its two handles in order: [gdbm_count],
    [gdbm_store] and [gdbm_close] only on the open store, [fopen] only
    once the store is closed, [fprintf] and [fclose] only on the open
    stream, and nothing on a handle after its close or after a failed
    open.  No run ends with the JSON stream open, and a run returns 0
    exactly when it ends with the stream closed. *)
Theorem X9_handles_used_in_order (w : World) (progname : string)
    (opts : list getopt_result) :
  exists s : handles,
    run_protocol NoHandle
      (trace (main GDBM_NEWDB GDBM_NUMSYNC GDBM_REPLACE w progname opts))
      = Some s /\
    s <> StreamOpen /\
    (result (main GDBM_NEWDB GDBM_NUMSYNC GDBM_REPLACE w progname opts) = Exit 0
     <-> s = StreamClosed).
Proof.
  apply (main_run_shapes
           (fun r => exists s : handles,
              run_protocol NoHandle (trace r) = Some s /\
              s <> StreamOpen /\
              (result r = Exit 0 <-> s = StreamClosed)));
    intros; unfold result, trace, fst, snd.
  - exists NoHandle. repeat split; discriminate.
  - exists NoHandle. repeat split; discriminate.
  - exists NoHandle. repeat split; discriminate.
  - exists StoreOpen. rewrite run_protocol_tr_store_fail.
    repeat split; discriminate.
  - exists StoreClosed. rewrite run_protocol_tr_fopen_fail.
    repeat split; discriminate.
  - exists StreamClosed. rewrite run_protocol_tr_ok.
    repeat split; discriminate.
  - exists StoreOpen. repeat split; discriminate.
  - exists StoreOpen. repeat split; discriminate.
  - exists StoreClosed. repeat split; discriminate.
  - exists StreamClosed. repeat split; discriminate.
Qed.

(** ** The data array *)

(** X10.  The JSON loop separates the elements of the data array by
    single commas, with no comma before the first element or after the
    last: what it writes is the comma-joined list of the elements
    ["key","value"], followed by what the code after the loop writes. *)
Theorem X10_data_array_comma_separated (data : list kv_pair) (k : run) :
  String.concat EmptyString (file_chunks (trace (json_loop true data k))) =
  String.concat "," (map (json_item true) data) +++
  String.concat EmptyString (file_chunks (trace k)).
Proof.
  rewrite json_loop_closed. unfold trace at 1, fst.
  rewrite file_chunks_app, file_chunks_fprintf, concat_empty_app.
  f_equal. apply json_items_comma_join.
Qed.

(** ** The failure paths *)

(** X11.  When the store cannot be created, under either plan, the run
    is the failed [gdbm_open] and the diagnostic "gdbm_open failed": no
    count query, no write, no JSON file, exit status 1. *)
Theorem X11_store_open_failure (w : World) (plan : string) (numsync : bool)
    (db_fn json_fn : string) :
  plan = "basic" \/ plan = "empty" ->
  gdbm_open_ok w db_fn 512 (open_flags GDBM_NEWDB GDBM_NUMSYNC numsync)
    mode_0666 = false ->
  dispatch GDBM_NEWDB GDBM_NUMSYNC GDBM_REPLACE w plan numsync db_fn json_fn =
  ([EvGdbmOpen db_fn 512 (open_flags GDBM_NEWDB GDBM_NUMSYNC numsync)
      mode_0666 false;
    EvStderr ("gdbm_open failed" +++ nl)], Exit 1).
Proof.
  intros [-> | ->] Hopen.
  - rewrite dispatch_basic. now apply gen_plan_basic_open_fail.
  - rewrite dispatch_empty. unfold gen_plan_empty. cbv zeta.
    now rewrite Hopen.
Qed.

(** X12.  When the JSON file cannot be created under the "basic" plan,
    the store has by then received all 10001 records and has been
    closed; the run prints "fopen failed", writes nothing to the JSON
    stream and returns 1. *)
Theorem X12_json_open_failure (w : World) (numsync : bool)
    (db_fn json_fn : string) :
  gdbm_open_ok w db_fn 512 (open_flags GDBM_NEWDB GDBM_NUMSYNC numsync)
    mode_0666 = true ->
  stores_succeed GDBM_REPLACE w 0 fill_data ->
  fopen_ok w json_fn = false ->
  gen_plan_basic GDBM_NEWDB GDBM_NUMSYNC GDBM_REPLACE w numsync db_fn json_fn =
  (EvGdbmOpen db_fn 512 (open_flags GDBM_NEWDB GDBM_NUMSYNC numsync)
     mode_0666 true ::
   map (fun i => EvGdbmStore ("key " +++ decimal i) ("value " +++ decimal i)
                   GDBM_REPLACE 0) (zseq 0 (Z.to_nat N_REC)) ++
   [EvGdbmClose; EvFopen json_fn false; EvStderr ("fopen failed" +++ nl)],
   Exit 1) /\
  file_chunks (trace (gen_plan_basic GDBM_NEWDB GDBM_NUMSYNC GDBM_REPLACE
                        w numsync db_fn json_fn)) = [].
Proof.
  intros Hopen Hall Hf.
  rewrite gen_plan_basic_fopen_fail by assumption.
  unfold trace, fst. split.
  - unfold tr_fopen_fail. rewrite fill_data_records, map_map. reflexivity.
  - generalize fill_data as data. intros data.
    unfold tr_fopen_fail. cbn [file_chunks].
    now rewrite file_chunks_app, file_chunks_store_ev.
Qed.

(** X13.  When [gdbm_count] fails under the "empty" plan, the run prints
    "gdbm_count failed" and returns 1 whatever count was stored: the
    assertion on the count is not reached, and no JSON file is opened. *)
Theorem X13_count_failure (w : World) (numsync : bool)
    (db_fn json_fn : string) :
  gdbm_open_ok w db_fn 512 (open_flags GDBM_NEWDB GDBM_NUMSYNC numsync)
    mode_0666 = true ->
  gdbm_count_rc w <> 0 ->
  gen_plan_empty GDBM_NEWDB GDBM_NUMSYNC w numsync db_fn json_fn =
  ([EvGdbmOpen db_fn 512 (open_flags GDBM_NEWDB GDBM_NUMSYNC numsync)
      mode_0666 true;
    EvGdbmCount (gdbm_count_rc w) (gdbm_count_val w);
    EvStderr ("gdbm_count failed" +++ nl)], Exit 1).
Proof.
  intros Hopen Hrc. unfold gen_plan_empty. cbv zeta.
  rewrite Hopen. apply Z.eqb_neq in Hrc. now rewrite Hrc.
Qed.

(** X14.  The two plans ask different things of the store: in no world
    does the "empty" plan call [gdbm_store], and in no world does the
    "basic" plan call [gdbm_count] or reach an assertion. *)
Theorem X14_plans_engine_calls (w : World) (numsync : bool)
    (db_fn json_fn : string) :
  existsb is_gdbm_store
    (trace (gen_plan_empty GDBM_NEWDB GDBM_NUMSYNC w numsync db_fn json_fn))
    = false /\
  existsb is_gdbm_count
    (trace (gen_plan_basic GDBM_NEWDB GDBM_NUMSYNC GDBM_REPLACE
              w numsync db_fn json_fn)) = false /\
  result (gen_plan_basic GDBM_NEWDB GDBM_NUMSYNC GDBM_REPLACE
            w numsync db_fn json_fn) <> Aborted.
Proof.
  split.
  - destruct (gen_plan_empty_cases w numsync db_fn json_fn)
      as [[_ ->]|[(_ & _ & ->)|[(_ & _ & _ & ->)
         |[(_ & _ & _ & _ & ->)|(_ & _ & _ & _ & ->)]]]]; reflexivity.
  - destruct (gen_plan_basic_cases GDBM_NEWDB GDBM_NUMSYNC GDBM_REPLACE
                w numsync db_fn json_fn)
      as [[_ ->]|[(_ & pre & p & post & _ & _ & _ & ->)
         |[(_ & _ & _ & ->)|(_ & _ & _ & ->)]]]; unfold trace, result, fst, snd.
    + split; [reflexivity | discriminate].
    + rewrite existsb_tr_store_fail by reflexivity.
      split; [reflexivity | discriminate].
    + rewrite existsb_tr_fopen_fail by reflexivity.
      split; [reflexivity | discriminate].
    + rewrite existsb_tr_ok by reflexivity.
      split; [reflexivity | discriminate].
Qed.

(** ** From the command line to the files *)

Lemma getopt_loop_accepts (opts : list getopt_result) : forall l l',
  getopt_loop opts l = Some l' -> existsb is_opt_other opts = false.
Proof.
  induction opts as [|o opts IH]; intros l l' H; [reflexivity|].
  destruct o; cbn [getopt_loop] in H; try discriminate H;
    cbn [existsb is_opt_other orb]; eapply IH; eassumption.
Qed.

Lemma forallb_map_true {A B} (g : B -> bool) (h : A -> B) (l : list A) :
  (forall x, g (h x) = true) -> forallb g (map h l) = true.
Proof.
  intros H. induction l as [|x l IH]; [reflexivity|].
  cbn [map forallb]. now rewrite H, IH.
Qed.

Lemma dispatch_names w plan ns db json :
  forallb (names_ok db json (open_flags GDBM_NEWDB GDBM_NUMSYNC ns))
    (trace (dispatch GDBM_NEWDB GDBM_NUMSYNC GDBM_REPLACE w plan ns db json))
  = true.
Proof.
  apply (dispatch_run_shapes
           (fun r => forallb
              (names_ok db json (open_flags GDBM_NEWDB GDBM_NUMSYNC ns))
              (trace r) = true));
    intros; unfold trace, fst;
    unfold tr_open_fail, tr_store_fail, tr_fopen_fail, tr_ok,
      tr_empty_count_fail, tr_empty_assert, tr_empty_fopen_fail, tr_empty_ok;
    cbn [forallb names_ok];
    rewrite ?String.eqb_refl, ?Z.eqb_refl; cbn [andb];
    rewrite ?forallb_app, ?forallb_map_true by reflexivity;
    cbn [forallb names_ok andb];
    rewrite ?String.eqb_refl;
    rewrite ?forallb_app, ?forallb_map_true by reflexivity;
    reflexivity.
Qed.

(** X15.  The store that a run creates is the file named by the last
    [-o] option, created with [GDBM_NUMSYNC] exactly when a [-n] option
    was given, and the JSON file that a run opens is the one named by
    the last [-j] option: the two names are never exchanged and a run
    touches no other file. *)
Theorem X15_operations_on_named_files (w : World) (progname : string)
    (opts : list getopt_result) (path : string) :
  (forall bs fl mode ok,
     In (EvGdbmOpen path bs fl mode ok)
       (trace (main GDBM_NEWDB GDBM_NUMSYNC GDBM_REPLACE w progname opts)) ->
     Some path = last (map Some (opt_o_args opts)) None /\
     fl = open_flags GDBM_NEWDB GDBM_NUMSYNC (existsb is_opt_n opts)) /\
  (forall ok,
     In (EvFopen path ok)
       (trace (main GDBM_NEWDB GDBM_NUMSYNC GDBM_REPLACE w progname opts)) ->
     Some path = last (map Some (opt_j_args opts)) None).
Proof.
  destruct (main_cases GDBM_NEWDB GDBM_NUMSYNC GDBM_REPLACE w progname opts)
    as [->|(l & fn & json & Hl & Hfn & Hjs & ->)].
  - split; intros; cbn in H; destruct H as [H|[H|[]]]; discriminate H.
  - pose proof (getopt_loop_accepts _ _ _ Hl) as Hacc.
    rewrite (getopt_loop_spec opts main_init Hacc) in Hl.
    injection Hl as <-. cbn [out_fn out_json numsync orb] in *.
    rewrite Hfn, Hjs.
    pose proof (dispatch_names w
      (last (opt_p_args opts) "basic")
      (existsb is_opt_n opts) fn json) as Hall.
    cbn [plan] in *.
    rewrite forallb_forall in Hall.
    split.
    + intros bs fl mode ok Hi. apply Hall in Hi. cbn [names_ok] in Hi.
      apply andb_prop in Hi as [Hp Hf].
      apply String.eqb_eq in Hp. apply Z.eqb_eq in Hf. now subst.
    + intros ok Hi. apply Hall in Hi. cbn [names_ok] in Hi.
      apply String.eqb_eq in Hi. now subst.
Qed.

(** X16.  The JSON document of a successful run of the "basic" plan, in
    full: the head with the timestamp and the count 10001, then the
    10001 elements ["key i","value i"] for i = 0, ..., 10000 joined by
    single commas, then the closing bracket and brace and one newline. *)
Theorem X16_basic_json_text (w : World) (numsync : bool)
    (db_fn json_fn : string) :
  result (gen_plan_basic GDBM_NEWDB GDBM_NUMSYNC GDBM_REPLACE
            w numsync db_fn json_fn) = Exit 0 ->
  json_file (trace (gen_plan_basic GDBM_NEWDB GDBM_NUMSYNC GDBM_REPLACE
                      w numsync db_fn json_fn)) =
  Some (json_head (fmt_lu (time_now w)) "10001" +++
        String.concat ","
          (map (fun i => "[" +++ dq +++ "key " +++ decimal i +++ dq +++ "," +++
                         dq +++ "value " +++ decimal i +++ dq +++ "]")
               (zseq 0 (Z.to_nat N_REC))) +++
        "]}" +++ nl).
Proof.
  intros H. apply basic_exit_0 in H. rewrite H. unfold trace, fst.
  rewrite tr_ok_json_file, json_items_comma_join.
  rewrite fill_data_length, fmt_zu_records, fill_data_records, map_map.
  reflexivity.
Qed.

End Extras.

(** * The further properties at concrete inputs *)

Lemma X2_witness :
  (opt_o_args [Opt_j "t.json"; Opt_p "empty"; Opt_n] = [] \/
   opt_j_args [Opt_j "t.json"; Opt_p "empty"; Opt_n] = []) /\
  main 3 8192 1 world_ok "testgen" [Opt_j "t.json"; Opt_p "empty"; Opt_n] =
  usage "testgen" (return_ 1).
Proof.
  assert (H : opt_o_args [Opt_j "t.json"; Opt_p "empty"; Opt_n] = [] \/
              opt_j_args [Opt_j "t.json"; Opt_p "empty"; Opt_n] = [])
    by (left; reflexivity).
  split; [exact H|].
  exact (X2_missing_file_name_usage 3 8192 1 world_ok "testgen"
           [Opt_j "t.json"; Opt_p "empty"; Opt_n] H).
Defined.

Lemma X3_witness :
  existsb is_opt_other
    [Opt_p "empty"; Opt_o "a.db"; Opt_n; Opt_o "b.db"; Opt_p "basic"] = false /\
  getopt_loop
    [Opt_p "empty"; Opt_o "a.db"; Opt_n; Opt_o "b.db"; Opt_p "basic"] main_init =
  Some {| out_fn := Some "b.db"; out_json := None;
          plan := "basic"; numsync := true |}.
Proof.
  split; [reflexivity|].
  exact (X3_last_option_wins
           [Opt_p "empty"; Opt_o "a.db"; Opt_n; Opt_o "b.db"; Opt_p "basic"]
           eq_refl).
Defined.

Lemma X11_witness :
  ("basic" = "basic" \/ "basic" = "empty") /\
  gdbm_open_ok world_open_fails "t.db" 512 (open_flags 3 8192 true) mode_0666
    = false /\
  dispatch 3 8192 1 world_open_fails "basic" true "t.db" "t.json" =
  ([EvGdbmOpen "t.db" 512 (open_flags 3 8192 true) mode_0666 false;
    EvStderr ("gdbm_open failed" +++ nl)], Exit 1).
Proof.
  split; [left; reflexivity|]. split; [reflexivity|].
  apply (X11_store_open_failure 3 8192 1 world_open_fails "basic" true
           "t.db" "t.json"); [left; reflexivity | reflexivity].
Defined.

Lemma X12_witness :
  gdbm_open_ok world_fopen_fails "t.db" 512 (open_flags 3 8192 false) mode_0666
    = true /\
  stores_succeed 1 world_fopen_fails 0 fill_data /\
  fopen_ok world_fopen_fails "t.json" = false /\
  gen_plan_basic 3 8192 1 world_fopen_fails false "t.db" "t.json" =
  (EvGdbmOpen "t.db" 512 (open_flags 3 8192 false) mode_0666 true ::
   map (fun i => EvGdbmStore ("key " +++ decimal i) ("value " +++ decimal i)
                   1 0) (zseq 0 (Z.to_nat N_REC)) ++
   [EvGdbmClose; EvFopen "t.json" false; EvStderr ("fopen failed" +++ nl)],
   Exit 1) /\
  file_chunks (trace (gen_plan_basic 3 8192 1 world_fopen_fails false
                        "t.db" "t.json")) = [].
Proof.
  split; [reflexivity|].
  split; [intros j p _; reflexivity|].
  split; [reflexivity|].
  apply (X12_json_open_failure 3 8192 1 world_fopen_fails false
           "t.db" "t.json");
    [reflexivity | intros j p _; reflexivity | reflexivity].
Defined.

Lemma X13_witness :
  gdbm_open_ok world_count_fails "t.db" 512 (open_flags 3 8192 false) mode_0666
    = true /\
  gdbm_count_rc world_count_fails <> 0 /\
  gen_plan_empty 3 8192 world_count_fails false "t.db" "t.json" =
  ([EvGdbmOpen "t.db" 512 (open_flags 3 8192 false) mode_0666 true;
    EvGdbmCount (gdbm_count_rc world_count_fails)
      (gdbm_count_val world_count_fails);
    EvStderr ("gdbm_count failed" +++ nl)], Exit 1).
Proof.
  assert (Hrc : gdbm_count_rc world_count_fails <> 0) by discriminate.
  split; [reflexivity|]. split; [exact Hrc|].
  apply (X13_count_failure 3 8192 world_count_fails false "t.db" "t.json");
    [reflexivity | exact Hrc].
Defined.

Lemma X16_witness :
  result (gen_plan_basic 3 8192 1 world_ok false "t.db" "t.json") = Exit 0 /\
  json_file (trace (gen_plan_basic 3 8192 1 world_ok false "t.db" "t.json")) =
  Some (json_head (fmt_lu (time_now world_ok)) "10001" +++
        String.concat ","
          (map (fun i => "[" +++ dq +++ "key " +++ decimal i +++ dq +++ "," +++
                         dq +++ "value " +++ decimal i +++ dq +++ "]")
               (zseq 0 (Z.to_nat N_REC))) +++
        "]}" +++ nl).
Proof.
  assert (H : result (gen_plan_basic 3 8192 1 world_ok false "t.db" "t.json")
              = Exit 0)
    by (apply basic_ok_exit_0;
        [reflexivity | intros j p _; reflexivity | reflexivity]).
  split; [exact H|].
  exact (X16_basic_json_text 3 8192 1 world_ok false "t.db" "t.json" H).
Defined.
